(** * User record operations of [models.py]

    A shallow embedding of the [User] data-access operations (account
    creation, credential check, one-time passcodes, consultation history and
    medication reminders) over the [users] collection held by the [Database]
    singleton, together with the properties the specification states about
    them.

    Modelling conventions.
    - The collection is the list of its documents in insertion order;
      [find_one] and [update_one] act on the first document whose [email]
      matches, as the driver does.  The store keeps a datetime to the
      millisecond: what is read back is the value written, cut down to a
      whole number of milliseconds; every other value comes back as
      written.
    - A document is a record; a field that may be missing or [None] is an
      [option] ([user.get(k)] does not tell the two apart, and
      [k in user] is [is_Some]).
    - A [datetime] is a count of microseconds since [datetime.min], without
      the upper end of Python's range; the clock reading, the salt of the
      password hash and the identifier generated by the driver are inputs of
      the operations that use them.
    - A parameter that defaults to [None] is an [option]; the others have the
      type their use shows: emails, passwords to check and the passcode to
      store are strings, a limit and an index are integers.  The passcode to
      verify is what the request carried: a string, or [None].
    - [generate_password_hash] and [check_password_hash] belong to werkzeug
      and are parameters of the development.
    - An operation is a computation on the [Database] handle that returns a
      value or raises; it raises on a handle whose connection failed. *)

From Stdlib Require Import ZArith NArith Lia Sorted Permutation Ascii.
From stdpp Require Import fin.
From stdpp Require Import base option list strings sorting relations.

Local Open Scope string_scope.
Local Open Scope list_scope.

(** ** Data model *)

Definition datetime := N.

(** [datetime.min] *)
Definition datetime_min : datetime := 0%N.

(** [timedelta(minutes=10)], in microseconds *)
Definition ten_minutes : N := 600000000%N.

Definition oid := N.

Bind Scope N_scope with datetime oid.

(** A consultation as stored: the caller's fields plus the [timestamp] key. *)
Record consultation (payload : Type) := Consultation {
  timestamp : option datetime;
  data : payload
}.
Arguments Consultation {payload} _ _.
Arguments timestamp {payload} _.
Arguments data {payload} _.

Record profile_t := Profile {
  age : option Z;
  weight : option Z;
  allergies : list string;
  medical_conditions : list string
}.

(** The [profile] written by [create_user]. *)
Definition default_profile : profile_t :=
  {| age := None; weight := None; allergies := []; medical_conditions := [] |}.

Record user_doc (payload : Type) := UserDoc {
  _id : oid;
  doc_email : string;
  doc_name : option string;
  doc_password_hash : option string;
  doc_google_id : option string;
  doc_created_at : datetime;
  doc_verified : bool;
  doc_otp : option string;
  doc_otp_expires : option datetime;
  doc_consultations : option (list (consultation payload));
  doc_profile : profile_t;
  doc_reminders : option (list payload)
}.
Arguments UserDoc {payload}.
Arguments _id {payload} _.
Arguments doc_email {payload} _.
Arguments doc_name {payload} _.
Arguments doc_password_hash {payload} _.
Arguments doc_google_id {payload} _.
Arguments doc_created_at {payload} _.
Arguments doc_verified {payload} _.
Arguments doc_otp {payload} _.
Arguments doc_otp_expires {payload} _.
Arguments doc_consultations {payload} _.
Arguments doc_profile {payload} _.
Arguments doc_reminders {payload} _.

(** ** Python helpers *)

(** Truth value of a string-or-[None]: [None] and [''] are false. *)
Definition truthy (x : option string) : bool :=
  match x with
  | Some s => negb (String.eqb s "")
  | None => false
  end.

(** [a == b] on string-or-[None] values. *)
Definition py_eq (a b : option string) : bool :=
  match a, b with
  | Some x, Some y => String.eqb x y
  | None, None => true
  | _, _ => false
  end.

(** A datetime as the store keeps it: cut down to the millisecond. *)
Definition bson_datetime (t : datetime) : datetime := (t / 1000 * 1000)%N.

Definition bson_consultation {payload} (c : consultation payload)
  : consultation payload :=
  {| timestamp := bson_datetime <$> timestamp c; data := data c |}.

(** A document as the store keeps it. *)
Definition bson_document {payload} (d : user_doc payload) : user_doc payload :=
  {| _id := _id d; doc_email := doc_email d; doc_name := doc_name d;
     doc_password_hash := doc_password_hash d; doc_google_id := doc_google_id d;
     doc_created_at := bson_datetime (doc_created_at d);
     doc_verified := doc_verified d;
     doc_otp := doc_otp d;
     doc_otp_expires := bson_datetime <$> doc_otp_expires d;
     doc_consultations :=
       (fun cs : list (consultation payload) => bson_consultation <$> cs)
         <$> doc_consultations d;
     doc_profile := doc_profile d;
     doc_reminders := doc_reminders d |}.

(** [l[:k]] for an integer [k]: a negative [k] counts from the end. *)
Definition slice_to {A} (l : list A) (k : Z) : list A :=
  if (0 <=? k)%Z then take (Z.to_nat k) l
  else take (Z.to_nat (Z.of_nat (length l) + k)) l.

(** [l.sort(key=key, reverse=True)]: descending in the key, and records with
    equal keys keep their relative order. *)
Section Sort.
Context {A : Type} (key : A -> N).

Fixpoint insert_desc (x : A) (l : list A) : list A :=
  match l with
  | [] => [x]
  | y :: l' =>
      if (key y <=? key x)%N then x :: y :: l' else y :: insert_desc x l'
  end.

Definition sort_reverse (l : list A) : list A := foldr insert_desc [] l.
End Sort.

(** ** The database handle and its monad *)

Inductive exn := DatabaseNotConnected | TypeError.

Inductive outcome (A : Type) :=
  | Return (a : A)
  | Raise (e : exn).
Arguments Return {A} _.
Arguments Raise {A} _.

(** The singleton: [db] is [None] when the connection failed. *)
Record Database (payload : Type) := { db : option (list (user_doc payload)) }.
Arguments db {payload} _.

Definition Connected {payload} (users : list (user_doc payload)) : Database payload :=
  {| db := Some users |}.

Definition M (payload A : Type) : Type :=
  Database payload -> outcome A * Database payload.

Definition ret {payload A} (a : A) : M payload A := fun h => (Return a, h).

Definition raise {payload A} (e : exn) : M payload A := fun h => (Raise e, h).

Definition bind {payload A B} (m : M payload A) (k : A -> M payload B) : M payload B :=
  fun h =>
    match m h with
    | (Return a, h') => k a h'
    | (Raise e, h') => (Raise e, h')
    end.

Declare Scope py_scope.
Delimit Scope py_scope with py.
Notation "x <- m ;; k" := (bind m (fun x => k))
  (at level 100, m at next level, right associativity) : py_scope.
Notation "m ;; k" := (bind m (fun _ => k))
  (at level 100, right associativity) : py_scope.

(** ** The [users] collection *)

Section User.
Context {payload : Type}.

(** [werkzeug.security]: the hash of a password under a salt, and its check. *)
Variable generate_password_hash : string -> string -> string.
Variable check_password_hash : string -> string -> bool.

(** The collection object handed out by the connected handle. *)
Inductive collection := users.

(** First document whose [email] is the one looked for. *)
Fixpoint first_match (email : string) (l : list (user_doc payload))
  : option (user_doc payload) :=
  match l with
  | [] => None
  | d :: l' =>
      if String.eqb (doc_email d) email then Some d else first_match email l'
  end.

(** The update applied to the first matching document, if there is one. *)
Fixpoint update_first (email : string) (f : user_doc payload -> user_doc payload)
    (l : list (user_doc payload)) : list (user_doc payload) :=
  match l with
  | [] => []
  | d :: l' =>
      if String.eqb (doc_email d) email then f d :: l'
      else d :: update_first email f l'
  end.

(** [Database.get_collection('users')] *)
Definition get_collection : M payload collection :=
  fun h =>
    match db h with
    | None => (Raise DatabaseNotConnected, h)
    | Some _ => (Return users, h)
    end.

(** [collection.find_one({'email': email})] *)
Definition find_one (c : collection) (email : string)
  : M payload (option (user_doc payload)) :=
  fun h =>
    match db h with
    | None => (Raise DatabaseNotConnected, h)
    | Some l => (Return (first_match email l), h)
    end.

(** [collection.insert_one(document)]: the stored copy is the document as
    the store keeps it. *)
Definition insert_one (c : collection) (document : user_doc payload)
  : M payload oid :=
  fun h =>
    match db h with
    | None => (Raise DatabaseNotConnected, h)
    | Some l =>
        (Return (_id document), Connected (l ++ [bson_document document]))
    end.

(** *** Fields as they are set *)

(** [{'$set': {'otp': otp, 'otp_expires': otp_expires}}] *)
Definition set_otp_fields (otp : option string) (otp_expires : option datetime)
    (d : user_doc payload) : user_doc payload :=
  {| _id := _id d; doc_email := doc_email d; doc_name := doc_name d;
     doc_password_hash := doc_password_hash d; doc_google_id := doc_google_id d;
     doc_created_at := doc_created_at d; doc_verified := doc_verified d;
     doc_otp := otp; doc_otp_expires := otp_expires;
     doc_consultations := doc_consultations d; doc_profile := doc_profile d;
     doc_reminders := doc_reminders d |}.

(** [{'$set': {'verified': True, 'otp': None, 'otp_expires': None}}] *)
Definition set_verified (d : user_doc payload) : user_doc payload :=
  {| _id := _id d; doc_email := doc_email d; doc_name := doc_name d;
     doc_password_hash := doc_password_hash d; doc_google_id := doc_google_id d;
     doc_created_at := doc_created_at d; doc_verified := true;
     doc_otp := None; doc_otp_expires := None;
     doc_consultations := doc_consultations d; doc_profile := doc_profile d;
     doc_reminders := doc_reminders d |}.

(** [{'$push': {'consultations': c}}]: a missing array is created. *)
Definition push_consultation (c : consultation payload) (d : user_doc payload)
  : user_doc payload :=
  {| _id := _id d; doc_email := doc_email d; doc_name := doc_name d;
     doc_password_hash := doc_password_hash d; doc_google_id := doc_google_id d;
     doc_created_at := doc_created_at d; doc_verified := doc_verified d;
     doc_otp := doc_otp d; doc_otp_expires := doc_otp_expires d;
     doc_consultations := Some (default [] (doc_consultations d) ++ [c]);
     doc_profile := doc_profile d; doc_reminders := doc_reminders d |}.

(** [{'$set': {'profile': profile_data}}] *)
Definition set_profile (profile_data : profile_t) (d : user_doc payload)
  : user_doc payload :=
  {| _id := _id d; doc_email := doc_email d; doc_name := doc_name d;
     doc_password_hash := doc_password_hash d; doc_google_id := doc_google_id d;
     doc_created_at := doc_created_at d; doc_verified := doc_verified d;
     doc_otp := doc_otp d; doc_otp_expires := doc_otp_expires d;
     doc_consultations := doc_consultations d; doc_profile := profile_data;
     doc_reminders := doc_reminders d |}.

(** [{'$set': {'reminders': reminders}}] *)
Definition set_reminders (reminders : list payload) (d : user_doc payload)
  : user_doc payload :=
  {| _id := _id d; doc_email := doc_email d; doc_name := doc_name d;
     doc_password_hash := doc_password_hash d; doc_google_id := doc_google_id d;
     doc_created_at := doc_created_at d; doc_verified := doc_verified d;
     doc_otp := doc_otp d; doc_otp_expires := doc_otp_expires d;
     doc_consultations := doc_consultations d; doc_profile := doc_profile d;
     doc_reminders := Some reminders |}.

(** [{'$push': {'reminders': reminder_data}}] *)
Definition push_reminder (reminder_data : payload) (d : user_doc payload)
  : user_doc payload :=
  set_reminders (default [] (doc_reminders d) ++ [reminder_data]) d.

(** *** Update documents *)

(** A field with its new value, as it stands in a [$set]. *)
Inductive field_value :=
  | verified_value (verified : bool)
  | otp_value (otp : option string)
  | otp_expires_value (otp_expires : option datetime)
  | profile_value (profile : profile_t)
  | reminders_value (reminders : list payload).

(** An array with the item to add, as it stands in a [$push]. *)
Inductive array_item :=
  | consultations_item (c : consultation payload)
  | reminders_item (r : payload).

(** [{'$set': {...}}] and [{'$push': {...}}] *)
Inductive update_document :=
  | set_fields (fields : list field_value)
  | push_item (item : array_item).

(** One field of a [$set], written the way the store keeps its value. *)
Definition assign (v : field_value) (d : user_doc payload) : user_doc payload :=
  match v with
  | verified_value verified =>
      {| _id := _id d; doc_email := doc_email d; doc_name := doc_name d;
         doc_password_hash := doc_password_hash d;
         doc_google_id := doc_google_id d;
         doc_created_at := doc_created_at d; doc_verified := verified;
         doc_otp := doc_otp d; doc_otp_expires := doc_otp_expires d;
         doc_consultations := doc_consultations d;
         doc_profile := doc_profile d; doc_reminders := doc_reminders d |}
  | otp_value otp => set_otp_fields otp (doc_otp_expires d) d
  | otp_expires_value otp_expires =>
      set_otp_fields (doc_otp d) (bson_datetime <$> otp_expires) d
  | profile_value profile => set_profile profile d
  | reminders_value reminders => set_reminders reminders d
  end.

(** The document after an update. *)
Definition apply_update (update : update_document) (d : user_doc payload)
  : user_doc payload :=
  match update with
  | set_fields fields => foldl (fun d v => assign v d) d fields
  | push_item (consultations_item c) => push_consultation (bson_consultation c) d
  | push_item (reminders_item r) => push_reminder r d
  end.

(** [collection.update_one({'email': email}, update)] *)
Definition update_one (c : collection) (email : string)
    (update : update_document) : M payload unit :=
  fun h =>
    match db h with
    | None => (Raise DatabaseNotConnected, h)
    | Some l =>
        (Return tt, Connected (update_first email (apply_update update) l))
    end.

(** *** The operations of [User] *)

Local Open Scope py_scope.

Definition find_by_email (email : string)
  : M payload (option (user_doc payload)) :=
  collection <- get_collection ;;
  find_one collection email.

(** The document [user_data] that [create_user] builds; [inserted_id] is the
    identifier the driver gives it on insertion. *)
Definition user_data (utcnow : datetime) (salt : string) (inserted_id : oid)
    (email : string) (name password google_id : option string)
  : user_doc payload :=
  {| _id := inserted_id;
     doc_email := email;
     doc_name := name;
     doc_password_hash :=
       if truthy password
       then generate_password_hash salt <$> password else None;
     doc_google_id := google_id;
     doc_created_at := utcnow;
     doc_verified := if truthy google_id then true else false;
     doc_otp := None;
     doc_otp_expires := None;
     doc_consultations := Some [];
     doc_profile := default_profile;
     doc_reminders := None |}.

Definition create_user (utcnow : datetime) (salt : string) (inserted_id : oid)
    (email : string) (name password google_id : option string)
  : M payload (option (user_doc payload)) :=
  collection <- get_collection ;;
  user <- find_by_email email ;;
  match user with
  | Some _ => ret None
  | None =>
      let user_data :=
        user_data utcnow salt inserted_id email name password google_id in
      insert_one collection user_data ;;
      ret (Some user_data)
  end.

Definition verify_password (email password : string) : M payload bool :=
  user <- find_by_email email ;;
  match user with
  | Some u =>
      match doc_password_hash u with
      | Some h =>
          if truthy (Some h) then ret (check_password_hash h password)
          else ret false
      | None => ret false
      end
  | None => ret false
  end.

Definition set_otp (utcnow : datetime) (email otp : string) : M payload unit :=
  collection <- get_collection ;;
  let otp_expires := (utcnow + ten_minutes)%N in
  update_one collection email
    (set_fields [otp_value (Some otp); otp_expires_value (Some otp_expires)]).

Definition verify_otp (utcnow : datetime) (email : string) (otp : option string)
  : M payload bool :=
  collection <- get_collection ;;
  user <- find_by_email email ;;
  match user with
  | None => ret false
  | Some u =>
      if py_eq (doc_otp u) otp then
        match doc_otp_expires u with
        | None => raise TypeError
        | Some expires =>
            if (utcnow <? expires)%N then
              update_one collection email
                (set_fields [verified_value true; otp_value None;
                             otp_expires_value None]) ;;
              ret true
            else ret false
        end
      else ret false
  end.

Definition add_consultation (utcnow : datetime) (email : string)
    (consultation_data : consultation payload) : M payload unit :=
  collection <- get_collection ;;
  let consultation_data :=
    {| timestamp := Some utcnow; data := data consultation_data |} in
  update_one collection email
    (push_item (consultations_item consultation_data)).

(** The sort key [x.get('timestamp', datetime.min)]. *)
Definition sort_key (x : consultation payload) : datetime :=
  default datetime_min (timestamp x).

Definition get_consultations (email : string) (limit : Z)
  : M payload (list (consultation payload)) :=
  user <- find_by_email email ;;
  match user with
  | Some u =>
      match doc_consultations u with
      | Some consultations =>
          let consultations := sort_reverse sort_key consultations in
          ret (slice_to consultations limit)
      | None => ret []
      end
  | None => ret []
  end.

(** The default of the keyword argument [limit]. *)
Definition default_limit : Z := 10.

Definition update_profile (email : string) (profile_data : profile_t)
  : M payload unit :=
  collection <- get_collection ;;
  update_one collection email (set_fields [profile_value profile_data]).

Definition add_reminder (email : string) (reminder_data : payload)
  : M payload unit :=
  collection <- get_collection ;;
  update_one collection email (push_item (reminders_item reminder_data)).

Definition get_reminders (email : string) : M payload (list payload) :=
  user <- find_by_email email ;;
  match user with
  | Some u => ret (default [] (doc_reminders u))
  | None => ret []
  end.

Definition delete_reminder (email : string) (reminder_index : Z)
  : M payload bool :=
  user <- find_by_email email ;;
  match user with
  | Some u =>
      match doc_reminders u with
      | Some reminders =>
          if ((0 <=? reminder_index)%Z
              && (reminder_index <? Z.of_nat (length reminders))%Z)%bool
          then
            let reminders := delete (Z.to_nat reminder_index) reminders in
            collection <- get_collection ;;
            update_one collection email
              (set_fields [reminders_value reminders]) ;;
            ret true
          else ret false
      | None => ret false
      end
  | None => ret false
  end.

(** *** Collections built by the account and passcode operations *)

(** The collections obtained from the empty one by [create_user], [set_otp]
    and [verify_otp]. *)
Inductive reachable : list (user_doc payload) -> Prop :=
  | reachable_empty : reachable []
  | reachable_create_user l l' utcnow salt inserted_id email name password google_id :
      reachable l ->
      snd (create_user utcnow salt inserted_id email name password google_id
             (Connected l)) = Connected l' ->
      reachable l'
  | reachable_set_otp l l' utcnow email code :
      reachable l ->
      snd (set_otp utcnow email code (Connected l)) = Connected l' ->
      reachable l'
  | reachable_verify_otp l l' utcnow email otp :
      reachable l ->
      snd (verify_otp utcnow email otp (Connected l)) = Connected l' ->
      reachable l'.

(** [otp] and [otp_expires] are null together or set together. *)
Definition otp_paired (d : user_doc payload) : Prop :=
  doc_otp d = None <-> doc_otp_expires d = None.

End User.

(** Number of documents stored under an email. *)
Definition count_by_email {payload} (email : string) (l : list (user_doc payload)) : nat :=
  length (filter (fun d => doc_email d = email) l).

(** ** Fixtures for the worked examples *)

(** A hash in the style of werkzeug's [plain] method: the password behind a
    method tag, whatever the salt. *)
Definition plain_hash (salt password : string) : string :=
  ("plain$" ++ password)%string.

Definition plain_check (pwhash password : string) : bool :=
  String.eqb pwhash ("plain$" ++ password)%string.

(** The account of the end-to-end scenario, as [create_user] leaves it. *)
Definition alice : user_doc string :=
  {| _id := 1%N; doc_email := "a@x.com"; doc_name := Some "Alice";
     doc_password_hash := Some "plain$pw1"; doc_google_id := None;
     doc_created_at := 1000%N; doc_verified := false;
     doc_otp := None; doc_otp_expires := None;
     doc_consultations := Some []; doc_profile := default_profile;
     doc_reminders := None |}.

(** A federated account: no password hash, verified from the start. *)
Definition bob : user_doc string :=
  {| _id := 2%N; doc_email := "b@x.com"; doc_name := Some "Bob";
     doc_password_hash := None; doc_google_id := Some "g-42";
     doc_created_at := 2000%N; doc_verified := true;
     doc_otp := None; doc_otp_expires := None;
     doc_consultations := Some []; doc_profile := default_profile;
     doc_reminders := None |}.

(** [alice] with the code [123456] issued at time [5000]. *)
Definition alice_pending : user_doc string :=
  set_otp_fields (Some "123456") (Some (5000 + ten_minutes)%N) alice.

(** A hash with the key handling of HMAC, on which werkzeug's scrypt and
    pbkdf2 methods rest: a short key is filled up with NUL bytes, so NUL bytes
    at the end of a password do not count.  The digest is left symbolic: the
    key itself stands for it. *)
Fixpoint hmac_key (password : string) : string :=
  match password with
  | EmptyString => EmptyString
  | String c rest =>
      match hmac_key rest with
      | EmptyString =>
          if Ascii.eqb c "000"%char then EmptyString
          else String c EmptyString
      | key => String c key
      end
  end.

Definition hmac_hash (salt password : string) : string :=
  ("hmac$" ++ hmac_key password)%string.

Definition hmac_check (pwhash password : string) : bool :=
  String.eqb pwhash ("hmac$" ++ hmac_key password)%string.

(** [alice] with two records written by other hands: one without a
    timestamp, then one stamped [datetime.min]. *)
Definition alice_unstamped : user_doc string :=
  {| _id := 1%N; doc_email := "a@x.com"; doc_name := Some "Alice";
     doc_password_hash := Some "plain$pw1"; doc_google_id := None;
     doc_created_at := 1000%N; doc_verified := false;
     doc_otp := None; doc_otp_expires := None;
     doc_consultations :=
       Some [Consultation None "imported"; Consultation (Some datetime_min) "ancient"];
     doc_profile := default_profile;
     doc_reminders := None |}.

(** [alice] with three reminders. *)
Definition alice_reminders : user_doc string :=
  set_reminders ["aspirin"; "insulin"; "statin"] alice.

(** The documents of a handle ([[]] when it is not connected). *)
Definition documents {payload} (h : Database payload) : list (user_doc payload) :=
  default [] (db h).

(** Five consultations appended to [alice], ten milliseconds apart. *)
Definition five_consultations : M string unit :=
  (add_consultation 10000 "a@x.com" (Consultation None "cough") ;;
   add_consultation 20000 "a@x.com" (Consultation None "fever") ;;
   add_consultation 30000 "a@x.com" (Consultation None "rash") ;;
   add_consultation 40000 "a@x.com" (Consultation None "sprain") ;;
   add_consultation 50000 "a@x.com" (Consultation None "migraine"))%py.

Definition history : list (user_doc string) :=
  documents (snd (five_consultations (Connected [alice; bob]))).

(** Descending order of keys: [a] may stand before [b]. *)
Definition descending {A} (key : A -> N) (a b : A) : Prop :=
  (key b <= key a)%N.

(** The order [get_consultations] sorts into. *)
Definition newest_first {payload} : relation (consultation payload) :=
  descending sort_key.

(** ** The rest of the module *)

(** *** The singleton *)

(** [Database.__new__].  [_instance] is the class attribute; [attempt] is what
    connecting and pinging gives if it is tried: the [users] of the database
    reached, or [None] for the exception that is caught.  The messages
    printed and the certificate path put in the environment are left out. *)
Definition Database_new {payload} (attempt : option (list (user_doc payload)))
    (_instance : option (Database payload))
  : Database payload * option (Database payload) :=
  match _instance with
  | None =>
      let instance :=
        match attempt with
        | Some l => {| db := Some l |}
        | None => {| db := None |}
        end in
      (instance, Some instance)
  | Some instance => (instance, Some instance)
  end.

(** [User.get_collection], from the class attribute on: [Database()] and then
    [get_collection('users')] on the handle it gives. *)
Definition User_get_collection {payload}
    (attempt : option (list (user_doc payload)))
    (_instance : option (Database payload))
  : outcome collection * option (Database payload) :=
  let (db, _instance) := Database_new attempt _instance in
  (fst (get_collection db), _instance).

(** *** Passcode generation *)

(** [string.digits] *)
Definition digits : list ascii := String.list_ascii_of_string "0123456789".

(** [random.choices(population, k=k)] for a population of ten: [draw i] is the
    position picked at the [i]-th draw. *)
Definition choices (population : list ascii) (k : nat) (draw : nat -> fin 10)
  : list ascii :=
  (fun i => nth (fin_to_nat (draw i)) population "0"%char) <$> seq 0 k.

(** [''.join(random.choices(string.digits, k=6))] *)
Definition generate_otp (draw : nat -> fin 10) : string :=
  String.string_of_list_ascii (choices digits 6 draw).

(** *** Lookup by federated identity, statistics, the constructor *)

(** First document whose [google_id] is the one looked for. *)
Fixpoint first_google_match {payload} (google_id : string)
    (l : list (user_doc payload)) : option (user_doc payload) :=
  match l with
  | [] => None
  | d :: l' =>
      if py_eq (doc_google_id d) (Some google_id) then Some d
      else first_google_match google_id l'
  end.

(** [collection.find_one({'google_id': google_id})] *)
Definition find_one_google_id {payload} (c : collection) (google_id : string)
  : M payload (option (user_doc payload)) :=
  fun h =>
    match db h with
    | None => (Raise DatabaseNotConnected, h)
    | Some l => (Return (first_google_match google_id l), h)
    end.

Definition find_by_google_id {payload} (google_id : string)
  : M payload (option (user_doc payload)) :=
  (collection <- get_collection ;;
   find_one_google_id collection google_id)%py.

(** The dictionary returned by [get_user_stats]. *)
Record user_stats := UserStats {
  stats_name : option string;
  stats_email : string;
  stats_joined : datetime;
  stats_total_consultations : nat;
  stats_verified : bool;
  stats_profile : profile_t
}.

Definition get_user_stats {payload} (email : string)
  : M payload (option user_stats) :=
  (user <- find_by_email email ;;
   match user with
   | None => ret None
   | Some u =>
       let total_consultations := length (default [] (doc_consultations u)) in
       ret (Some {| stats_name := doc_name u;
                    stats_email := doc_email u;
                    stats_joined := doc_created_at u;
                    stats_total_consultations := total_consultations;
                    stats_verified := doc_verified u;
                    stats_profile := doc_profile u |})
   end)%py.

(** The attributes of a [User] object. *)
Record User_object (payload : Type) := UserObject {
  self_email : string;
  self_name : option string;
  self_password_hash : option string;
  self_google_id : option string;
  self_created_at : datetime;
  self_verified : bool;
  self_otp : option string;
  self_otp_expires : option datetime;
  self_consultations : list (consultation payload)
}.
Arguments UserObject {payload}.
Arguments self_email {payload} _.
Arguments self_name {payload} _.
Arguments self_password_hash {payload} _.
Arguments self_google_id {payload} _.
Arguments self_created_at {payload} _.
Arguments self_verified {payload} _.
Arguments self_otp {payload} _.
Arguments self_otp_expires {payload} _.
Arguments self_consultations {payload} _.

(** [User.__init__]; the clock reading and the salt are those of this call. *)
Definition User_init {payload}
    (generate_password_hash : string -> string -> string)
    (utcnow : datetime) (salt : string)
    (email : string) (name password google_id : option string)
  : User_object payload :=
  {| self_email := email;
     self_name := name;
     self_password_hash :=
       if truthy password
       then generate_password_hash salt <$> password else None;
     self_google_id := google_id;
     self_created_at := utcnow;
     self_verified := false;
     self_otp := None;
     self_otp_expires := None;
     self_consultations := [] |}.

(** A run of [verify_otp] calls for one email, each at its clock reading
    with its code; the handle after the last one. *)
Fixpoint verify_otp_attempts {payload} (email : string)
    (tries : list (datetime * option string)) (h : Database payload)
  : Database payload :=
  match tries with
  | [] => h
  | (utcnow, otp) :: tries' =>
      verify_otp_attempts email tries' (snd (verify_otp utcnow email otp h))
  end.

(** *** Histories of the collection *)

Section Steps.
Context {payload : Type}.
Variable generate_password_hash : string -> string -> string.

(** One call of an operation that writes, on a connected handle. *)
Inductive step : relation (list (user_doc payload)) :=
  | step_create_user l l' utcnow salt inserted_id email name password google_id :
      snd (create_user generate_password_hash utcnow salt inserted_id email
             name password google_id (Connected l)) = Connected l' ->
      step l l'
  | step_set_otp l l' utcnow email otp :
      snd (set_otp utcnow email otp (Connected l)) = Connected l' ->
      step l l'
  | step_verify_otp l l' utcnow email otp :
      snd (verify_otp utcnow email otp (Connected l)) = Connected l' ->
      step l l'
  | step_add_consultation l l' utcnow email consultation_data :
      snd (add_consultation utcnow email consultation_data (Connected l))
      = Connected l' ->
      step l l'
  | step_update_profile l l' email profile_data :
      snd (update_profile email profile_data (Connected l)) = Connected l' ->
      step l l'
  | step_add_reminder l l' email reminder_data :
      snd (add_reminder email reminder_data (Connected l)) = Connected l' ->
      step l l'
  | step_delete_reminder l l' email reminder_index :
      snd (delete_reminder email reminder_index (Connected l)) = Connected l' ->
      step l l'.

(** The update documents the operations send. *)
Inductive sent_update : (user_doc payload -> user_doc payload) -> Prop :=
  | sent_set_otp otp otp_expires :
      sent_update (set_otp_fields (Some otp) (Some otp_expires))
  | sent_set_verified : sent_update set_verified
  | sent_push_consultation utcnow x :
      sent_update (push_consultation {| timestamp := Some utcnow; data := x |})
  | sent_set_profile profile_data : sent_update (set_profile profile_data)
  | sent_set_reminders reminders : sent_update (set_reminders reminders)
  | sent_push_reminder reminder_data : sent_update (push_reminder reminder_data).

(** What every operation keeps of a document: its identity, its credentials,
    a [verified] that was true, and the consultations it had, in order. *)
Definition kept (u u' : user_doc payload) : Prop :=
  _id u' = _id u /\ doc_email u' = doc_email u /\ doc_name u' = doc_name u /\
  doc_password_hash u' = doc_password_hash u /\
  doc_google_id u' = doc_google_id u /\
  doc_created_at u' = doc_created_at u /\
  (doc_verified u = true -> doc_verified u' = true) /\
  (forall consultations, doc_consultations u = Some consultations ->
     exists more, doc_consultations u' = Some (consultations ++ more)).

(** Every stored consultation carries a timestamp. *)
Definition all_stamped (d : user_doc payload) : Prop :=
  exists consultations,
    doc_consultations d = Some consultations /\
    Forall (fun c => is_Some (timestamp c)) consultations.

(** What holds of every document the operations produce. *)
Definition well_formed (d : user_doc payload) : Prop :=
  otp_paired d /\ all_stamped d /\
  (truthy (doc_google_id d) = true -> doc_verified d = true).

End Steps.


(** ** Facts about the collection primitives *)

Section CollectionFacts.
Context {payload : Type}.
Implicit Types (l : list (user_doc payload)) (u d : user_doc payload).
Implicit Types (f : user_doc payload -> user_doc payload) (email : string).

Lemma py_eq_true (a b : option string) : py_eq a b = true <-> a = b.
Proof.
  destruct a as [x|], b as [y|]; simpl; try (split; congruence).
  rewrite String.eqb_eq. split; congruence.
Qed.

Lemma py_eq_false (a b : option string) : py_eq a b = false <-> a <> b.
Proof.
  rewrite <- py_eq_true. destruct (py_eq a b); split; congruence.
Qed.

Lemma first_match_email email l u :
  first_match email l = Some u -> doc_email u = email.
Proof.
  induction l as [|d l IH]; simpl; [discriminate|].
  destruct (String.eqb_spec (doc_email d) email) as [E|E]; [|exact IH].
  intros [= <-]. exact E.
Qed.

Lemma update_first_absent email f l :
  first_match email l = None -> update_first email f l = l.
Proof.
  induction l as [|d l IH]; simpl; [reflexivity|].
  destruct (String.eqb (doc_email d) email); [discriminate|].
  intros H. rewrite IH by exact H. reflexivity.
Qed.

Lemma first_match_update_first email f l :
  (forall d, doc_email (f d) = doc_email d) ->
  first_match email (update_first email f l) = f <$> first_match email l.
Proof.
  intros Hf. induction l as [|d l IH]; simpl; [reflexivity|].
  destruct (String.eqb (doc_email d) email) eqn:E; simpl.
  - rewrite Hf, E. reflexivity.
  - rewrite E. exact IH.
Qed.

Lemma first_match_update_first_ne email email' f l :
  (forall d, doc_email (f d) = doc_email d) ->
  email' <> email ->
  first_match email' (update_first email f l) = first_match email' l.
Proof.
  intros Hf Hne. induction l as [|d l IH]; simpl; [reflexivity|].
  destruct (String.eqb_spec (doc_email d) email) as [E|E]; simpl.
  - rewrite Hf.
    destruct (String.eqb_spec (doc_email d) email') as [E'|E']; [congruence|].
    reflexivity.
  - rewrite IH. reflexivity.
Qed.

Lemma update_first_Forall (P : user_doc payload -> Prop) email f l :
  (forall d, P d -> P (f d)) -> Forall P l -> Forall P (update_first email f l).
Proof.
  intros Hf. induction 1 as [|d l Hd Hl IH]; simpl; [constructor|].
  destruct (String.eqb (doc_email d) email); constructor; auto.
Qed.

End CollectionFacts.

(** ** Accounts *)

Section Accounts.
Context {payload : Type}.
Variable generate_password_hash : string -> string -> string.
Variable check_password_hash : string -> string -> bool.
Implicit Types (l : list (user_doc payload)) (u d : user_doc payload).
Implicit Types (email salt : string) (name password google_id : option string).

Lemma first_match_app email l l' :
  first_match email (l ++ l') =
  match first_match email l with
  | Some u => Some u
  | None => first_match email l'
  end.
Proof.
  induction l as [|d l IH]; simpl; [reflexivity|].
  destruct (String.eqb (doc_email d) email); [reflexivity|exact IH].
Qed.

Lemma count_by_email_app email l l' :
  count_by_email email (l ++ l') =
  count_by_email email l + count_by_email email l'.
Proof. unfold count_by_email. rewrite filter_app, length_app. reflexivity. Qed.

Lemma count_by_email_absent email l :
  first_match email l = None -> count_by_email email l = 0.
Proof.
  unfold count_by_email. induction l as [|d l IH]; simpl; [reflexivity|].
  destruct (String.eqb_spec (doc_email d) email) as [E|E]; [discriminate|].
  intros H. rewrite filter_cons_False by exact E. auto.
Qed.

(** [create_user] on a connected handle, case by case. *)
Lemma create_user_connected utcnow salt inserted_id email name password google_id l :
  create_user generate_password_hash utcnow salt inserted_id email name
    password google_id (Connected l) =
  match first_match email l with
  | Some _ => (Return None, Connected l)
  | None =>
      let d := user_data generate_password_hash utcnow salt inserted_id email
                 name password google_id in
      (Return (Some d), Connected (l ++ [bson_document d]))
  end.
Proof.
  unfold create_user, bind. simpl.
  destruct (first_match email l); reflexivity.
Qed.

Lemma verify_password_connected email (password : string) l :
  verify_password check_password_hash email password (Connected l) =
  (Return
     match first_match email l with
     | Some u =>
         match doc_password_hash u with
         | Some h =>
             if truthy (Some h) then check_password_hash h password else false
         | None => false
         end
     | None => false
     end, Connected l).
Proof.
  unfold verify_password, bind. simpl.
  destruct (first_match email l) as [u|]; [|reflexivity].
  destruct (doc_password_hash u) as [h|]; [|reflexivity].
  simpl. destruct (negb _); reflexivity.
Qed.

(** C2. When a document is already stored under the email, [create_user]
    returns [None] and leaves the collection as it was: the stored document
    is still the one found, and no document was added for that email. *)
Theorem create_user_existing_email
    utcnow salt inserted_id email name password google_id l u :
  first_match email l = Some u ->
  let r := create_user generate_password_hash utcnow salt inserted_id email
             name password google_id (Connected l) in
  r = (Return None, Connected l) /\
  (forall l', snd r = Connected l' ->
     first_match email l' = Some u /\
     length l' = length l /\
     count_by_email email l' = count_by_email email l).
Proof.
  intros Hu r. subst r. rewrite create_user_connected, Hu.
  split; [reflexivity|]. simpl. intros l' [= <-]. auto.
Qed.

(** C7. [verify_password] returns false, whatever the password, for an
    account stored without a password hash, and for an email under which
    nothing is stored. *)
Theorem verify_password_without_hash email (password : string) l :
  (forall u, first_match email l = Some u -> doc_password_hash u = None ->
     verify_password check_password_hash email password (Connected l)
     = (Return false, Connected l))
  /\ (first_match email l = None ->
        verify_password check_password_hash email password (Connected l)
        = (Return false, Connected l)).
Proof.
  rewrite verify_password_connected. split.
  - intros u -> ->. reflexivity.
  - intros ->. reflexivity.
Qed.

(** C8 (amended). For an email under which nothing is stored, [create_user]
    stores one document, the only one under that email, and returns the
    document it built, with the identifier given on insertion.  The stored
    copy is the returned document with [created_at] cut down to the
    millisecond.  In both, the password hash is the hash of the password when
    a non-empty password is given and null when the password is omitted or
    empty; the document is verified exactly when a non-empty [google_id] is
    given; the passcode fields are null, the consultation list is empty and
    the profile is the default one. *)
Theorem create_user_fresh_email
    utcnow salt inserted_id email name password google_id l :
  first_match email l = None ->
  exists d stored,
    create_user generate_password_hash utcnow salt inserted_id email name
      password google_id (Connected l)
    = (Return (Some d), Connected (l ++ [stored])) /\
    first_match email (l ++ [stored]) = Some stored /\
    count_by_email email (l ++ [stored]) = 1 /\
    (forall email', email' <> email ->
       first_match email' (l ++ [stored]) = first_match email' l) /\
    doc_created_at d = utcnow /\
    doc_created_at stored = bson_datetime utcnow /\
    (forall x, x = d \/ x = stored ->
       _id x = inserted_id /\ doc_email x = email /\ doc_name x = name /\
       doc_google_id x = google_id /\
       (forall p, password = Some p -> p <> "" ->
          doc_password_hash x = Some (generate_password_hash salt p)) /\
       (password = None \/ password = Some "" -> doc_password_hash x = None) /\
       (doc_verified x = true <-> exists g, google_id = Some g /\ g <> "") /\
       doc_otp x = None /\ doc_otp_expires x = None /\
       doc_consultations x = Some [] /\ doc_profile x = default_profile /\
       doc_reminders x = None).
Proof.
  intros Hfresh. rewrite create_user_connected, Hfresh. simpl.
  eexists _, _. split; [reflexivity|].
  split.
  { rewrite first_match_app, Hfresh. simpl. rewrite String.eqb_refl.
    reflexivity. }
  split.
  { rewrite count_by_email_app, count_by_email_absent by exact Hfresh.
    unfold count_by_email. rewrite filter_cons_True by reflexivity.
    reflexivity. }
  split.
  { intros email' Hne. rewrite first_match_app.
    destruct (first_match email' l); [reflexivity|]. simpl.
    destruct (String.eqb_spec email email'); congruence. }
  split; [reflexivity|]. split; [reflexivity|].
  intros x [-> | ->]; simpl.
  all: repeat (split; [reflexivity|]).
  all: split;
    [intros p -> Hp; simpl;
     destruct (String.eqb_spec p ""); [contradiction|reflexivity]|].
  all: split; [intros [->| ->]; reflexivity|].
  all: split; [|repeat split].
  all: destruct google_id as [g|]; simpl;
    [destruct (String.eqb_spec g ""); simpl; split;
       [discriminate
       |intros (g' & [= <-] & Hg); contradiction
       |intros _; exists g; auto
       |reflexivity]
    |split; [discriminate|intros (g & [=] & _)]].
Qed.

(** C5 (amended). Let the hash library accept the password a hash was made
    from, and never produce an empty hash.  After [create_user] with a fresh
    email and a non-empty password, [verify_password] with that email returns
    true for the same password, and for any password it returns what the
    library's check answers for it on the stored hash: false for every
    password the check rejects. *)
Theorem password_round_trip
    utcnow salt inserted_id email name (password : string) google_id l :
  (forall s p, check_password_hash (generate_password_hash s p) p = true) ->
  (forall s p, generate_password_hash s p <> "") ->
  first_match email l = None ->
  password <> "" ->
  let h := snd (create_user generate_password_hash utcnow salt inserted_id
                  email name (Some password) google_id (Connected l)) in
  verify_password check_password_hash email password h = (Return true, h) /\
  (forall password' : string,
     verify_password check_password_hash email password' h
     = (Return (check_password_hash (generate_password_hash salt password)
                  password'), h)) /\
  (forall password' : string,
     check_password_hash (generate_password_hash salt password) password'
     = false ->
     verify_password check_password_hash email password' h
     = (Return false, h)).
Proof.
  intros Hok Hne Hfresh Hpw h. subst h.
  rewrite create_user_connected, Hfresh. simpl.
  assert (Hfound : forall d : user_doc payload, doc_email d = email ->
            first_match email (l ++ [d]) = Some d).
  { intros d Hd. rewrite first_match_app, Hfresh. simpl.
    rewrite Hd, String.eqb_refl. reflexivity. }
  assert (Hany : forall password' : string,
    verify_password check_password_hash email password'
      (Connected
         (l ++ [bson_document
                  (user_data generate_password_hash utcnow salt inserted_id
                     email name (Some password) google_id)]))
    = (Return (check_password_hash (generate_password_hash salt password)
                 password'),
       Connected
         (l ++ [bson_document
                  (user_data generate_password_hash utcnow salt inserted_id
                     email name (Some password) google_id)]))).
  { intros password'.
    rewrite verify_password_connected, Hfound by reflexivity. simpl.
    destruct (String.eqb_spec password ""); try contradiction; simpl.
    destruct (String.eqb_spec (generate_password_hash salt password) "")
      as [E|_]; [exfalso; exact (Hne _ _ E)|]. reflexivity. }
  split; [|split].
  - rewrite Hany, Hok. reflexivity.
  - exact Hany.
  - intros password' Hrej. rewrite Hany, Hrej. reflexivity.
Qed.

End Accounts.

(** ** One-time passcodes *)

Section Otp.
Context {payload : Type}.
Variable generate_password_hash : string -> string -> string.
Implicit Types (l : list (user_doc payload)) (u : user_doc payload).
Implicit Types (email code : string) (otp : option string) (utcnow : datetime).

(** [verify_otp] on a connected handle, case by case. *)
Lemma verify_otp_connected utcnow email otp l :
  verify_otp utcnow email otp (Connected l) =
  match first_match email l with
  | None => (Return false, Connected l)
  | Some u =>
      if py_eq (doc_otp u) otp then
        match doc_otp_expires u with
        | None => (Raise TypeError, Connected l)
        | Some expires =>
            if (utcnow <? expires)%N
            then (Return true, Connected (update_first email set_verified l))
            else (Return false, Connected l)
        end
      else (Return false, Connected l)
  end.
Proof.
  unfold verify_otp, bind. simpl.
  destruct (first_match email l) as [u|]; [|reflexivity].
  destruct (py_eq (doc_otp u) otp); [|reflexivity].
  destruct (doc_otp_expires u) as [e|]; [|reflexivity].
  destruct (utcnow <? e)%N; reflexivity.
Qed.

Lemma set_otp_connected utcnow email code l :
  set_otp utcnow email code (Connected l) =
  (Return tt,
   Connected (update_first email
                (set_otp_fields (Some code)
                   (Some (bson_datetime (utcnow + ten_minutes)))) l)).
Proof. reflexivity. Qed.

(** The datetime kept is the last whole millisecond not after the one
    written. *)
Lemma bson_datetime_bounds (t : N) :
  (bson_datetime t <= t < bson_datetime t + 1000)%N.
Proof.
  unfold bson_datetime.
  pose proof (N.div_mod t 1000 ltac:(discriminate)) as Hdiv.
  pose proof (N.mod_lt t 1000 ltac:(discriminate)) as Hmod.
  set (q := (t / 1000)%N) in *. set (r := (t mod 1000)%N) in *.
  clearbody q r. lia.
Qed.


(** C6. Once [set_otp] has stored a code for a user, [verify_otp] with that
    code before the expiry the store holds returns true and clears the stored
    code, and a further [verify_otp] with the same code, at any time, returns
    false. *)
Theorem otp_verifies_once t_set t_first t_second email code l u :
  first_match email l = Some u ->
  let h0 := snd (set_otp t_set email code (Connected l)) in
  let expires := bson_datetime (t_set + ten_minutes) in
  (t_first < expires)%N ->
  let r1 := verify_otp t_first email (Some code) h0 in
  let r2 := verify_otp t_second email (Some code) (snd r1) in
  (exists l0 u0, h0 = Connected l0 /\ first_match email l0 = Some u0 /\
     doc_otp u0 = Some code /\ doc_otp_expires u0 = Some expires) /\
  fst r1 = Return true /\
  (exists l1 u1, snd r1 = Connected l1 /\ first_match email l1 = Some u1 /\
     doc_otp u1 = None /\ doc_otp_expires u1 = None /\ doc_verified u1 = true) /\
  r2 = (Return false, snd r1).
Proof.
  intros Hu h0 expires Hlt r1 r2. subst r2 r1 h0 expires.
  rewrite set_otp_connected. cbn [snd].
  split.
  { eexists _, _. split; [reflexivity|].
    rewrite first_match_update_first by reflexivity. rewrite Hu.
    repeat split. }
  rewrite verify_otp_connected.
  rewrite first_match_update_first by reflexivity. rewrite Hu. simpl.
  rewrite String.eqb_refl.
  destruct (N.ltb_spec t_first (bson_datetime (t_set + ten_minutes)))
    as [_|Hge]; [|lia].
  simpl. split; [reflexivity|]. split.
  - eexists _, _. split; [reflexivity|].
    rewrite !first_match_update_first by reflexivity. rewrite Hu.
    simpl. auto.
  - rewrite verify_otp_connected.
    rewrite !first_match_update_first by reflexivity. rewrite Hu.
    reflexivity.
Qed.

(** [otp_paired] holds of every document of a reachable collection. *)
Lemma reachable_otp_paired l :
  reachable generate_password_hash l -> Forall otp_paired l.
Proof.
  induction 1 as [| l l' utcnow salt inserted_id email name password google_id _ IH Hstep
                  | l l' utcnow email code _ IH Hstep
                  | l l' utcnow email otp _ IH Hstep].
  - constructor.
  - rewrite create_user_connected in Hstep.
    destruct (first_match email l); simpl in Hstep; injection Hstep as <-;
      [exact IH|].
    apply Forall_app. split; [exact IH|].
    constructor; [|constructor]. split; reflexivity.
  - rewrite set_otp_connected in Hstep. simpl in Hstep. injection Hstep as <-.
    apply update_first_Forall; [|exact IH].
    intros d _. split; discriminate.
  - rewrite verify_otp_connected in Hstep.
    destruct (first_match email l) as [u|]; [|injection Hstep as <-; exact IH].
    destruct (py_eq (doc_otp u) otp); [|injection Hstep as <-; exact IH].
    destruct (doc_otp_expires u) as [e|]; [|injection Hstep as <-; exact IH].
    destruct (utcnow <? e)%N; injection Hstep as <-; [|exact IH].
    apply update_first_Forall; [|exact IH].
    intros d _. split; reflexivity.
Qed.

(** C9 (amended). In every collection reachable by [create_user], [set_otp]
    and [verify_otp], each document has [otp] and [otp_expires] null together
    or set together.  [set_otp] stores the code with an expiry that is ten
    minutes after the clock reading cut down to the millisecond, whatever was
    stored before; a successful [verify_otp] clears both and sets [verified];
    [create_user] starts with both null. *)
Theorem otp_fields_paired :
  (forall l, reachable generate_password_hash l -> Forall otp_paired l)
  /\ (forall utcnow email code l u,
        first_match email l = Some u ->
        exists l' u' expires,
          set_otp utcnow email code (Connected l) = (Return tt, Connected l') /\
          first_match email l' = Some u' /\
          doc_otp u' = Some code /\
          doc_otp_expires u' = Some expires /\
          expires = bson_datetime (utcnow + ten_minutes) /\
          (expires <= utcnow + ten_minutes < expires + 1000)%N)
  /\ (forall utcnow email otp l l',
        verify_otp utcnow email otp (Connected l) = (Return true, Connected l') ->
        exists u', first_match email l' = Some u' /\
          doc_otp u' = None /\ doc_otp_expires u' = None /\
          doc_verified u' = true)
  /\ (forall utcnow salt inserted_id email name password google_id l d,
        fst (create_user generate_password_hash utcnow salt inserted_id email
               name password google_id (Connected l)) = Return (Some d) ->
        doc_otp d = None /\ doc_otp_expires d = None /\
        exists l' stored,
          snd (create_user generate_password_hash utcnow salt inserted_id
                 email name password google_id (Connected l)) = Connected l' /\
          first_match email l' = Some stored /\
          doc_otp stored = None /\ doc_otp_expires stored = None).
Proof.
  split; [exact reachable_otp_paired|]. split; [|split].
  - intros utcnow email code l u Hu. rewrite set_otp_connected.
    eexists _, _, _. split; [reflexivity|].
    rewrite first_match_update_first by reflexivity. rewrite Hu. simpl.
    repeat split; apply bson_datetime_bounds.
  - intros utcnow email otp l l' Hv.
    rewrite verify_otp_connected in Hv.
    destruct (first_match email l) as [u|] eqn:Hu; [|discriminate].
    destruct (py_eq (doc_otp u) otp); [|discriminate].
    destruct (doc_otp_expires u) as [e|]; [|discriminate].
    destruct (utcnow <? e)%N; [|discriminate].
    injection Hv as <-. exists (set_verified u).
    rewrite first_match_update_first by reflexivity. rewrite Hu. simpl. auto.
  - intros utcnow salt inserted_id email name password google_id l d.
    rewrite create_user_connected.
    destruct (first_match email l) eqn:Hfresh; simpl; [discriminate|].
    intros [= <-]. split; [reflexivity|]. split; [reflexivity|].
    eexists _, _. split; [reflexivity|].
    rewrite first_match_app, Hfresh. simpl. rewrite String.eqb_refl.
    repeat split.
Qed.

(** C10. [set_otp] for an email under which nothing is stored returns
    normally and leaves the collection exactly as it was. *)
Theorem set_otp_unknown_email utcnow email (otp : string) l :
  first_match email l = None ->
  set_otp utcnow email otp (Connected l) = (Return tt, Connected l).
Proof.
  intros Hnone. rewrite set_otp_connected, update_first_absent by exact Hnone.
  reflexivity.
Qed.

End Otp.

(** ** Reminders *)

Section Reminders.
Context {payload : Type}.
Implicit Types (l : list (user_doc payload)) (u : user_doc payload).
Implicit Types (email : string) (reminders : list payload).

(** [delete_reminder] on a connected handle, case by case. *)
Lemma delete_reminder_connected email (reminder_index : Z) l :
  delete_reminder email reminder_index (Connected l) =
  match first_match email l with
  | Some u =>
      match doc_reminders u with
      | Some reminders =>
          if ((0 <=? reminder_index)%Z
              && (reminder_index <? Z.of_nat (length reminders))%Z)%bool
          then (Return true,
                Connected (update_first email
                  (set_reminders (delete (Z.to_nat reminder_index) reminders)) l))
          else (Return false, Connected l)
      | None => (Return false, Connected l)
      end
  | None => (Return false, Connected l)
  end.
Proof.
  unfold delete_reminder, bind. simpl.
  destruct (first_match email l) as [u|]; [|reflexivity].
  destruct (doc_reminders u) as [rs|]; [|reflexivity].
  destruct (_ && _)%bool; reflexivity.
Qed.

Lemma get_reminders_connected email l :
  get_reminders email (Connected l) =
  (Return match first_match email l with
          | Some u => default [] (doc_reminders u)
          | None => []
          end, Connected l).
Proof.
  unfold get_reminders, bind. simpl.
  destruct (first_match email l); reflexivity.
Qed.

(** C4. For a user whose reminder sequence has [n] elements,
    [delete_reminder] with an index outside [0, n) returns false and changes
    nothing; with an index [i] inside it returns true and stores the sequence
    without its element at [i]: one element shorter, the same before [i], and
    each later element one position down. *)
Theorem delete_reminder_correct email (reminder_index : Z) l u reminders :
  first_match email l = Some u ->
  doc_reminders u = Some reminders ->
  let n := Z.of_nat (length reminders) in
  let i := Z.to_nat reminder_index in
  let r := delete_reminder email reminder_index (Connected l) in
  ((reminder_index < 0 \/ n <= reminder_index)%Z ->
     r = (Return false, Connected l) /\
     get_reminders email (snd r) = (Return reminders, snd r))
  /\ ((0 <= reminder_index < n)%Z ->
        exists l' reminders',
          r = (Return true, Connected l') /\
          get_reminders email (Connected l') = (Return reminders', Connected l') /\
          first_match email l' = Some (set_reminders reminders' u) /\
          (forall email', email' <> email ->
             first_match email' l' = first_match email' l) /\
          reminders' = take i reminders ++ drop (S i) reminders /\
          S (length reminders') = length reminders /\
          (forall j, j < i -> reminders' !! j = reminders !! j) /\
          (forall j, i <= j -> reminders' !! j = reminders !! S j)).
Proof.
  intros Hu Hrs n i r. subst n i r.
  rewrite delete_reminder_connected, Hu, Hrs. split.
  - intros Hout.
    assert (((0 <=? reminder_index)%Z
             && (reminder_index <? Z.of_nat (length reminders))%Z)%bool = false)
      as ->.
    { apply andb_false_iff. rewrite Z.leb_gt, Z.ltb_ge. lia. }
    split; [reflexivity|]. simpl.
    rewrite get_reminders_connected, Hu, Hrs. reflexivity.
  - intros Hin.
    assert (((0 <=? reminder_index)%Z
             && (reminder_index <? Z.of_nat (length reminders))%Z)%bool = true)
      as ->.
    { apply andb_true_iff. rewrite Z.leb_le, Z.ltb_lt. lia. }
    exists (update_first email
              (set_reminders (delete (Z.to_nat reminder_index) reminders)) l),
           (delete (Z.to_nat reminder_index) reminders).
    split; [reflexivity|].
    assert (Hfound :
      first_match email
        (update_first email
           (set_reminders (delete (Z.to_nat reminder_index) reminders)) l)
      = Some (set_reminders (delete (Z.to_nat reminder_index) reminders) u)).
    { rewrite first_match_update_first by reflexivity. rewrite Hu. reflexivity. }
    split; [rewrite get_reminders_connected, Hfound; reflexivity|].
    split; [exact Hfound|].
    split.
    { intros email' Hne. apply first_match_update_first_ne; [reflexivity|exact Hne]. }
    split; [apply delete_take_drop|].
    split.
    { rewrite length_delete.
      - destruct reminders; simpl in *; lia.
      - apply lookup_lt_is_Some. lia. }
    split.
    + intros j Hj. apply list_lookup_delete_lt. exact Hj.
    + intros j Hj. apply list_lookup_delete_ge. exact Hj.
Qed.

End Reminders.

(** ** Consultation history *)

Section SortFacts.
Context {A : Type} (key : A -> N).
Implicit Types (x : A) (l : list A).

Local Abbreviation desc := (descending key).

Lemma insert_desc_Permutation x l : insert_desc key x l ≡ₚ x :: l.
Proof.
  induction l as [|y l IH]; simpl; [reflexivity|].
  destruct (key y <=? key x)%N; [reflexivity|].
  rewrite IH. apply perm_swap.
Qed.

Lemma sort_reverse_Permutation l : sort_reverse key l ≡ₚ l.
Proof.
  induction l as [|x l IH]; simpl; [reflexivity|].
  rewrite insert_desc_Permutation, IH. reflexivity.
Qed.

Lemma length_sort_reverse l : length (sort_reverse key l) = length l.
Proof. apply Permutation_length, sort_reverse_Permutation. Qed.

Lemma insert_desc_sorted x l :
  StronglySorted desc l -> StronglySorted desc (insert_desc key x l).
Proof.
  induction 1 as [|y l Hl IH Hy]; simpl.
  - repeat constructor.
  - destruct (N.leb_spec (key y) (key x)) as [Hle|Hgt].
    + constructor; [constructor; assumption|].
      constructor; [exact Hle|].
      eapply Forall_impl; [exact Hy|].
      intros z Hz. unfold descending in *. lia.
    + constructor; [exact IH|].
      rewrite insert_desc_Permutation. constructor; [|exact Hy].
      unfold descending. lia.
Qed.

Lemma sort_reverse_sorted l : StronglySorted desc (sort_reverse key l).
Proof.
  induction l as [|x l IH]; simpl; [constructor|].
  apply insert_desc_sorted, IH.
Qed.

(** Stability: the records of one key come out in the order they went in. *)
Lemma insert_desc_stable k x l :
  filter (fun y => key y = k) (insert_desc key x l)
  = filter (fun y => key y = k) (x :: l).
Proof.
  induction l as [|y l IH]; simpl; [reflexivity|].
  destruct (N.leb_spec (key y) (key x)) as [Hle|Hgt]; [reflexivity|].
  rewrite (filter_cons _ y (insert_desc key x l)), IH.
  rewrite !filter_cons.
  destruct (decide (key y = k)) as [Ey|Ey], (decide (key x = k)) as [Ex|Ex];
    try reflexivity.
  lia.
Qed.

Lemma sort_reverse_stable k l :
  filter (fun y => key y = k) (sort_reverse key l)
  = filter (fun y => key y = k) l.
Proof.
  induction l as [|x l IH]; simpl; [reflexivity|].
  rewrite insert_desc_stable, !filter_cons, IH. reflexivity.
Qed.

(** In a descending list a larger key never stands behind a smaller one. *)
Lemma sorted_lookup_order l i j a b :
  StronglySorted desc l ->
  l !! i = Some a -> l !! j = Some b -> (key a < key b)%N -> j < i.
Proof.
  intros Hs. revert i j. induction Hs as [|y l Hl IH Hy]; intros i j.
  - rewrite lookup_nil. discriminate.
  - destruct i as [|i], j as [|j]; simpl.
    + intros [= <-] [= <-]. lia.
    + intros [= <-] Hb Hlt. exfalso.
      rewrite Forall_forall in Hy.
      specialize (Hy b (list_elem_of_lookup_2 _ _ _ Hb)).
      unfold descending in Hy. lia.
    + lia.
    + intros Ha Hb Hlt. specialize (IH i j Ha Hb Hlt). lia.
Qed.

End SortFacts.

Section Consultations.
Context {payload : Type}.
Implicit Types (l : list (user_doc payload)) (u : user_doc payload).
Implicit Types (email : string) (limit : Z).
Implicit Types (consultations res rest : list (consultation payload)).

(** [get_consultations] on a connected handle, case by case. *)
Lemma get_consultations_connected email limit l :
  get_consultations email limit (Connected l) =
  (Return match first_match email l with
          | Some u =>
              match doc_consultations u with
              | Some consultations =>
                  slice_to (sort_reverse sort_key consultations) limit
              | None => []
              end
          | None => []
          end, Connected l).
Proof.
  unfold get_consultations, bind. simpl.
  destruct (first_match email l) as [u|]; [|reflexivity].
  destruct (doc_consultations u); reflexivity.
Qed.

Lemma slice_to_nonneg {A} (l : list A) (k : Z) :
  (0 <= k)%Z -> slice_to l k = take (Z.to_nat k) l.
Proof.
  intros Hk. unfold slice_to.
  destruct (Z.leb_spec 0 k); [reflexivity|lia].
Qed.

(** C3 (amended). For a user document, [get_consultations] puts the stored
    consultation records (none when the field is missing) in descending order
    of timestamp, a record without a timestamp counting as stamped
    [datetime.min], so that it comes after every record stamped later than
    [datetime.min]; records of equal key keep their stored order.  It returns
    the first [limit] of them (all when there are fewer) when the limit is
    not negative, and all but the last [-limit] when it is negative.  The
    records left out are no more recent than any record returned, and the
    collection is not changed. *)
Theorem get_consultations_correct email limit l u :
  first_match email l = Some u ->
  let consultations := default [] (doc_consultations u) in
  exists res rest,
    get_consultations email limit (Connected l) = (Return res, Connected l) /\
    consultations ≡ₚ res ++ rest /\
    StronglySorted newest_first (res ++ rest) /\
    (forall k, filter (fun x => sort_key x = k) (res ++ rest)
               = filter (fun x => sort_key x = k) consultations) /\
    (forall i j a b,
       (res ++ rest) !! i = Some a -> (res ++ rest) !! j = Some b ->
       timestamp a = None -> (datetime_min < sort_key b)%N -> j < i) /\
    ((0 <= limit)%Z ->
       length res = Nat.min (Z.to_nat limit) (length consultations)) /\
    ((limit < 0)%Z ->
       length rest = Nat.min (Z.to_nat (- limit)) (length consultations)).
Proof.
  intros Hu consultations.
  set (sorted := sort_reverse sort_key consultations).
  set (n := if (0 <=? limit)%Z then Z.to_nat limit
            else Z.to_nat (Z.of_nat (length sorted) + limit)).
  exists (take n sorted), (drop n sorted).
  rewrite take_drop.
  split.
  { rewrite get_consultations_connected, Hu. subst n sorted consultations.
    unfold slice_to. destruct (doc_consultations u) as [cs|]; simpl.
    - destruct (0 <=? limit)%Z; reflexivity.
    - destruct (0 <=? limit)%Z; rewrite take_nil; reflexivity. }
  split.
  { symmetry. apply sort_reverse_Permutation. }
  split.
  { apply (sort_reverse_sorted sort_key). }
  split.
  { intros k. apply sort_reverse_stable. }
  split.
  { intros i j a b Ha Hb Hnone Hlater.
    apply (sorted_lookup_order sort_key sorted i j a b);
      [apply sort_reverse_sorted|exact Ha|exact Hb|].
    unfold sort_key at 1. rewrite Hnone. exact Hlater. }
  split.
  - intros Hlimit. rewrite length_take. subst n sorted.
    rewrite length_sort_reverse.
    destruct (Z.leb_spec 0 limit); [reflexivity|lia].
  - intros Hlimit. rewrite length_drop. subst n sorted.
    rewrite length_sort_reverse.
    destruct (Z.leb_spec 0 limit); lia.
Qed.

End Consultations.

(** ** Worked examples *)

Lemma plain_check_accepts s p : plain_check (plain_hash s p) p = true.
Proof. apply String.eqb_refl. Qed.

Lemma plain_hash_nonempty s p : plain_hash s p <> "".
Proof. discriminate. Qed.

Lemma hmac_check_accepts s p : hmac_check (hmac_hash s p) p = true.
Proof. apply String.eqb_refl. Qed.

Lemma hmac_hash_nonempty s p : hmac_hash s p <> "".
Proof. discriminate. Qed.

(** The scenario of the specification: the three most recent of five. *)
Example get_consultations_three_of_five :
  get_consultations "a@x.com" 3 (Connected history)
  = (Return [Consultation (Some 50000%N) "migraine";
             Consultation (Some 40000%N) "sprain";
             Consultation (Some 30000%N) "rash"], Connected history).
Proof. reflexivity. Qed.

(** Ten is the limit when none is asked for: everything there is, here. *)
Example get_consultations_default_limit :
  fst (get_consultations "a@x.com" default_limit (Connected history))
  = Return (Consultation (Some 50000%N) "migraine"
            :: Consultation (Some 40000%N) "sprain"
            :: Consultation (Some 30000%N) "rash"
            :: Consultation (Some 20000%N) "fever"
            :: Consultation (Some 10000%N) "cough" :: []).
Proof. reflexivity. Qed.

(** A stored code whose expiry is missing: the comparison with the clock
    raises, and nothing is written. *)
Example verify_otp_missing_expiry :
  let d := set_otp_fields (Some "123456") None alice in
  verify_otp 6000 "a@x.com" (Some "123456") (Connected [d; bob])
  = (Raise TypeError, Connected [d; bob]).
Proof. reflexivity. Qed.

(** No code in the request, none pending on the account: the two are equal,
    and the comparison of the missing expiry with the clock raises. *)
Example verify_otp_without_code :
  verify_otp 6000 "a@x.com" None (Connected [alice; bob])
  = (Raise TypeError, Connected [alice; bob]).
Proof. reflexivity. Qed.

(** Every operation raises on a handle that is not connected. *)
Example verify_otp_not_connected :
  verify_otp 6000 "a@x.com" (Some "123456") ({| db := None |} : Database string)
  = (Raise DatabaseNotConnected, {| db := None |}).
Proof. reflexivity. Qed.

(** The clock reading is kept to the millisecond. *)
Example bson_datetime_cut : bson_datetime 600005500 = 600005000%N.
Proof. reflexivity. Qed.


Lemma create_user_existing_email_witness :
  create_user plain_hash 3000 "s" 9 "a@x.com" (Some "Mallory") (Some "pw2") None
    (Connected [alice; bob])
  = (Return None, Connected [alice; bob]).
Proof.
  exact (proj1 (create_user_existing_email plain_hash 3000 "s" 9%N "a@x.com"
                  (Some "Mallory") (Some "pw2") None [alice; bob] alice eq_refl)).
Defined.

Lemma get_consultations_correct_witness :
  exists res,
    get_consultations "a@x.com" 3 (Connected history)
    = (Return res, Connected history) /\ length res = 3.
Proof.
  destruct (get_consultations_correct "a@x.com" 3 history
              (nth 0 history alice) eq_refl)
    as (res & rest & Hres & _ & _ & _ & _ & Hlen & _).
  exists res. split; [exact Hres|]. apply Hlen. discriminate.
Defined.

(** A record without a timestamp stands before one stamped [datetime.min],
    and with a limit of one it alone is returned; a limit of [-1] on five
    records gives four of them, a limit of [0] none. *)
Lemma get_consultations_not_as_stated :
  get_consultations "a@x.com" 10 (Connected [alice_unstamped; bob])
  = (Return [Consultation None "imported";
             Consultation (Some datetime_min) "ancient"],
     Connected [alice_unstamped; bob]) /\
  get_consultations "a@x.com" 1 (Connected [alice_unstamped; bob])
  = (Return [Consultation None "imported"], Connected [alice_unstamped; bob]) /\
  get_consultations "a@x.com" (-1) (Connected history)
  = (Return [Consultation (Some 50000%N) "migraine";
             Consultation (Some 40000%N) "sprain";
             Consultation (Some 30000%N) "rash";
             Consultation (Some 20000%N) "fever"], Connected history) /\
  get_consultations "a@x.com" 0 (Connected history)
  = (Return [], Connected history).
Proof. repeat split. Qed.

Lemma delete_reminder_correct_witness :
  (exists l',
     delete_reminder "a@x.com" 1 (Connected [alice_reminders; bob])
     = (Return true, Connected l') /\
     get_reminders "a@x.com" (Connected l')
     = (Return ["aspirin"; "statin"], Connected l')) /\
  delete_reminder "a@x.com" 3 (Connected [alice_reminders; bob])
  = (Return false, Connected [alice_reminders; bob]).
Proof.
  split.
  - destruct (proj2 (delete_reminder_correct "a@x.com" 1 [alice_reminders; bob]
                       alice_reminders _ eq_refl eq_refl))
      as (l' & reminders' & Hr & Hget & _ & _ & Heq & _).
    { simpl. lia. }
    exists l'. split; [exact Hr|]. rewrite Hget, Heq. reflexivity.
  - apply (proj1 (delete_reminder_correct "a@x.com" 3 [alice_reminders; bob]
                    alice_reminders _ eq_refl eq_refl)).
    simpl. lia.
Defined.

Lemma password_round_trip_witness :
  let h := snd (create_user plain_hash 1000 "s" 1 "a@x.com" (Some "Alice")
                  (Some "pw1") None (Connected [bob])) in
  verify_password plain_check "a@x.com" "pw1" h = (Return true, h) /\
  verify_password plain_check "a@x.com" "wrong" h = (Return false, h).
Proof.
  destruct (password_round_trip plain_hash plain_check 1000 "s" 1%N "a@x.com"
              (Some "Alice") "pw1" None [bob]
              plain_check_accepts plain_hash_nonempty
              eq_refl ltac:(discriminate)) as (Hsame & _ & Hother).
  split; [exact Hsame|]. apply Hother. reflexivity.
Defined.

(** An account made with the empty password has no hash, so the empty
    password does not verify; and under a hash that fills its key up with NUL
    bytes, as werkzeug's methods do, a password with a NUL byte appended
    verifies in place of the one the account was made with. *)
Lemma password_round_trip_not_as_stated :
  let l : list (user_doc string) := [bob] in
  let h := snd (create_user plain_hash 1000 "s" 1 "a@x.com" (Some "Alice")
                  (Some "") None (Connected l)) in
  let pw1_nul := String "p" (String "w" (String "1" (String "000" ""))) in
  let h' := snd (create_user hmac_hash 1000 "s" 1 "a@x.com" (Some "Alice")
                   (Some "pw1") None (Connected l)) in
  first_match "a@x.com" l = None /\
  verify_password plain_check "a@x.com" "" h = (Return false, h) /\
  pw1_nul <> "pw1" /\
  verify_password hmac_check "a@x.com" "pw1" h' = (Return true, h') /\
  verify_password hmac_check "a@x.com" pw1_nul h' = (Return true, h').
Proof. repeat split. discriminate. Qed.

Lemma otp_verifies_once_witness :
  let h0 := snd (set_otp 5000 "a@x.com" "123456" (Connected [alice; bob])) in
  let r1 := verify_otp 6000 "a@x.com" (Some "123456") h0 in
  fst r1 = Return true /\
  verify_otp 7000 "a@x.com" (Some "123456") (snd r1) = (Return false, snd r1).
Proof.
  destruct (otp_verifies_once 5000 6000 7000 "a@x.com" "123456" [alice; bob]
              alice eq_refl eq_refl) as (_ & Hfirst & _ & Hsecond).
  split; [exact Hfirst|exact Hsecond].
Defined.

Lemma verify_password_without_hash_witness :
  verify_password plain_check "b@x.com" "anything" (Connected [alice; bob])
  = (Return false, Connected [alice; bob]) /\
  verify_password plain_check "nobody@x.com" "pw1" (Connected [alice; bob])
  = (Return false, Connected [alice; bob]).
Proof.
  split.
  - apply (proj1 (verify_password_without_hash plain_check "b@x.com" "anything"
                    [alice; bob]) bob); reflexivity.
  - apply (proj2 (verify_password_without_hash plain_check "nobody@x.com" "pw1"
                    [alice; bob])); reflexivity.
Defined.

Lemma create_user_fresh_email_witness :
  exists d stored,
    create_user plain_hash 1000500 "s" 1 "a@x.com" (Some "Alice") (Some "pw1")
      None (Connected [bob])
    = (Return (Some d), Connected [bob; stored]) /\
    doc_password_hash stored = Some (plain_hash "s" "pw1") /\
    doc_verified stored = false /\
    doc_created_at d = 1000500%N /\ doc_created_at stored = 1000000%N.
Proof.
  destruct (create_user_fresh_email plain_hash 1000500 "s" 1%N "a@x.com"
              (Some "Alice") (Some "pw1") None [bob] eq_refl)
    as (d & stored & Hr & _ & _ & _ & Hd & Hs & Hboth).
  exists d, stored. split; [exact Hr|].
  destruct (Hboth stored (or_intror eq_refl))
    as (_ & _ & _ & _ & Hhash & _ & Hver & _).
  split; [apply (Hhash "pw1"); [reflexivity|discriminate]|].
  split; [|split; [exact Hd|exact Hs]].
  destruct (doc_verified stored); [|reflexivity].
  destruct (proj1 Hver eq_refl) as (g & Hg & _). discriminate Hg.
Defined.

(** With the empty string for password and [google_id] the document has no
    hash and is not verified; and the stored copy has its [created_at] cut to
    the millisecond, unlike the document returned. *)
Lemma create_user_not_as_stated :
  exists d stored,
    create_user plain_hash 3000500 "s" 3 "c@x.com" (Some "Carol") (Some "")
      (Some "") (Connected [alice; bob])
    = (Return (Some d), Connected [alice; bob; stored]) /\
    doc_password_hash d = None /\
    doc_password_hash d <> Some (plain_hash "s" "") /\
    doc_google_id d = Some "" /\ doc_verified d = false /\
    doc_created_at d = 3000500%N /\ doc_created_at stored = 3000000%N /\
    stored <> d.
Proof.
  exists (user_data plain_hash 3000500 "s" 3 "c@x.com" (Some "Carol") (Some "")
            (Some "")),
         (bson_document
            (user_data plain_hash 3000500 "s" 3 "c@x.com" (Some "Carol")
               (Some "") (Some ""))).
  split; [reflexivity|]. simpl.
  split; [reflexivity|]. split; [discriminate|].
  repeat (split; [reflexivity|]). discriminate.
Qed.

Lemma otp_fields_paired_witness :
  reachable plain_hash [alice_pending] /\ Forall otp_paired [alice_pending].
Proof.
  assert (Hreach : reachable plain_hash [alice_pending]).
  { apply (reachable_set_otp plain_hash [alice] _ 5000%N "a@x.com" "123456");
      [|reflexivity].
    apply (reachable_create_user plain_hash [] _ 1000%N "s" 1%N "a@x.com"
             (Some "Alice") (Some "pw1") None); [|reflexivity].
    apply reachable_empty. }
  split; [exact Hreach|].
  apply (proj1 (otp_fields_paired plain_hash)). exact Hreach.
Defined.

(** A code set at clock reading 5500 is stored with the expiry 600005000,
    not 5500 plus ten minutes. *)
Lemma set_otp_expiry_cut :
  exists u',
    snd (set_otp 5500 "a@x.com" "123456" (Connected [alice; bob]))
    = Connected [u'; bob] /\
    doc_otp u' = Some "123456" /\
    doc_otp_expires u' = Some 600005000%N /\
    doc_otp_expires u' <> Some (5500 + ten_minutes)%N.
Proof.
  eexists. split; [reflexivity|]. simpl.
  split; [reflexivity|]. split; [reflexivity|discriminate].
Qed.

Lemma set_otp_unknown_email_witness :
  set_otp 5000 "nobody@x.com" "123456" (Connected [alice; bob])
  = (Return tt, Connected [alice; bob]).
Proof.
  apply (set_otp_unknown_email 5000 "nobody@x.com" "123456" [alice; bob]).
  reflexivity.
Defined.

(** ** Writes and reads beyond the stated claims *)

Section Writes.
Context {payload : Type}.
Implicit Types (l : list (user_doc payload)) (u : user_doc payload).
Implicit Types (email : string) (utcnow : datetime).
Implicit Types (f g : user_doc payload -> user_doc payload).

Lemma add_consultation_connected utcnow email (c : consultation payload) l :
  add_consultation utcnow email c (Connected l) =
  (Return tt,
   Connected (update_first email
     (push_consultation
        {| timestamp := Some (bson_datetime utcnow); data := data c |}) l)).
Proof. reflexivity. Qed.

Lemma update_profile_connected email profile_data l :
  update_profile email profile_data (Connected l) =
  (Return tt, Connected (update_first email (set_profile profile_data) l)).
Proof. reflexivity. Qed.

Lemma add_reminder_connected email (reminder_data : payload) l :
  add_reminder email reminder_data (Connected l) =
  (Return tt, Connected (update_first email (push_reminder reminder_data) l)).
Proof. reflexivity. Qed.

Lemma get_user_stats_connected email l :
  get_user_stats email (Connected l) =
  (Return ((fun u =>
     {| stats_name := doc_name u; stats_email := doc_email u;
        stats_joined := doc_created_at u;
        stats_total_consultations := length (default [] (doc_consultations u));
        stats_verified := doc_verified u;
        stats_profile := doc_profile u |}) <$> first_match email l),
   Connected (payload := payload) l).
Proof.
  unfold get_user_stats, bind. simpl.
  destruct (first_match email l); reflexivity.
Qed.

Lemma update_first_ext email f g l :
  (forall d, f d = g d) -> update_first email f l = update_first email g l.
Proof.
  intros Hfg. induction l as [|d l IH]; simpl; [reflexivity|].
  destruct (String.eqb (doc_email d) email); [rewrite Hfg|rewrite IH];
    reflexivity.
Qed.

Lemma update_first_twice email f g l :
  (forall d, doc_email (g d) = doc_email d) ->
  update_first email f (update_first email g l)
  = update_first email (fun d => f (g d)) l.
Proof.
  intros Hg. induction l as [|d l IH]; simpl; [reflexivity|].
  destruct (String.eqb (doc_email d) email) eqn:E; simpl.
  - rewrite Hg, E. reflexivity.
  - rewrite E, IH. reflexivity.
Qed.

(** X4. A write addressed to an email under which nothing is stored is dropped
    without an error: a consultation, a profile or a reminder sent there
    leaves the collection as it was. *)
Theorem writes_to_unknown_email_dropped
    utcnow email (c : consultation payload) profile_data (reminder_data : payload) l :
  first_match email l = None ->
  add_consultation utcnow email c (Connected l) = (Return tt, Connected l) /\
  update_profile email profile_data (Connected l) = (Return tt, Connected l) /\
  add_reminder email reminder_data (Connected l) = (Return tt, Connected l).
Proof.
  intros Hnone.
  rewrite add_consultation_connected, update_profile_connected,
    add_reminder_connected, !update_first_absent by exact Hnone.
  repeat split.
Qed.

(** X5. Reading under an email with no document gives the empty answer of each
    reader, never an error, and [delete_reminder] answers false. *)
Theorem reads_of_unknown_email email limit reminder_index l :
  first_match email l = None ->
  find_by_email email (Connected l) = (Return None, Connected l) /\
  get_consultations email limit (Connected l) = (Return [], Connected l) /\
  get_reminders email (Connected l) = (Return [], Connected l) /\
  get_user_stats email (Connected l) = (Return None, Connected l) /\
  delete_reminder email reminder_index (Connected l)
  = (Return false, Connected l).
Proof.
  intros Hnone.
  rewrite get_consultations_connected, get_reminders_connected,
    get_user_stats_connected, delete_reminder_connected, Hnone.
  split; [|repeat split].
  unfold find_by_email, bind, find_one. simpl. rewrite Hnone. reflexivity.
Qed.

(** X6. [add_reminder] puts the reminder at the end of the user's sequence,
    starting the sequence when the document has none, and nobody else's
    reminders change. *)
Theorem add_reminder_appends email (reminder_data : payload) l u :
  first_match email l = Some u ->
  let h := snd (add_reminder email reminder_data (Connected l)) in
  get_reminders email h
  = (Return (default [] (doc_reminders u) ++ [reminder_data]), h) /\
  (forall email', email' <> email ->
     fst (get_reminders email' h) = fst (get_reminders email' (Connected l))).
Proof.
  intros Hu h. subst h. rewrite add_reminder_connected. simpl. split.
  - rewrite get_reminders_connected, first_match_update_first by reflexivity.
    rewrite Hu. reflexivity.
  - intros email' Hne. rewrite !get_reminders_connected. simpl.
    rewrite first_match_update_first_ne by (reflexivity || exact Hne).
    reflexivity.
Qed.

(** X7. Deleting the reminder just added, at the index equal to the former
    length, succeeds and gives back the former sequence; the [reminders]
    field is then present even if the document had none before. *)
Theorem add_then_delete_reminder email (reminder_data : payload) l u :
  first_match email l = Some u ->
  let before := default [] (doc_reminders u) in
  let h := snd (add_reminder email reminder_data (Connected l)) in
  let r := delete_reminder email (Z.of_nat (length before)) h in
  fst r = Return true /\
  get_reminders email (snd r) = (Return before, snd r) /\
  exists l' u',
    snd r = Connected l' /\ first_match email l' = Some u' /\
    doc_reminders u' = Some before.
Proof.
  intros Hu before h r. subst r h.
  rewrite add_reminder_connected. simpl.
  rewrite delete_reminder_connected.
  rewrite first_match_update_first by reflexivity. rewrite Hu. simpl.
  fold before.
  assert (((0 <=? Z.of_nat (length before))%Z
           && (Z.of_nat (length before)
               <? Z.of_nat (length (before ++ [reminder_data])))%Z)%bool = true)
    as ->.
  { apply andb_true_iff. rewrite Z.leb_le, Z.ltb_lt, length_app. simpl. lia. }
  rewrite Nat2Z.id, delete_middle, app_nil_r. simpl.
  assert (Hfound :
    first_match email
      (update_first email (set_reminders before)
         (update_first email (push_reminder reminder_data) l))
    = Some (set_reminders before (push_reminder reminder_data u))).
  { rewrite !first_match_update_first by reflexivity. rewrite Hu. reflexivity. }
  split; [reflexivity|]. split.
  - rewrite get_reminders_connected, Hfound. reflexivity.
  - eexists _, _. split; [reflexivity|]. split; [exact Hfound|reflexivity].
Qed.

(** X8. A user whose document has no [reminders] field has no reminders to read
    and none to delete, whatever the index. *)
Theorem no_reminders_field email reminder_index l u :
  first_match email l = Some u ->
  doc_reminders u = None ->
  get_reminders email (Connected l) = (Return [], Connected l) /\
  delete_reminder email reminder_index (Connected l)
  = (Return false, Connected l).
Proof.
  intros Hu Hnone.
  rewrite get_reminders_connected, delete_reminder_connected, Hu, Hnone.
  split; reflexivity.
Qed.

End Writes.

Section SortMore.
Context {A : Type} (key : A -> N).

(** A record keyed above all the others, put last, is sorted to the front. *)
Lemma sort_reverse_snoc_newest (l : list A) (x : A) :
  Forall (fun y => (key y < key x)%N) l ->
  sort_reverse key (l ++ [x]) = x :: sort_reverse key l.
Proof.
  induction 1 as [|y l Hy _ IH]; simpl; [reflexivity|].
  rewrite IH. simpl.
  destruct (N.leb_spec (key x) (key y)); [lia|reflexivity].
Qed.

End SortMore.

Section History.
Context {payload : Type}.
Implicit Types (l : list (user_doc payload)) (u : user_doc payload).
Implicit Types (email : string) (utcnow : datetime) (limit : Z).

(** X9. A consultation added at a clock reading whose millisecond is
    later than every stored timestamp is the first one [get_consultations]
    returns, for any limit of at least one, followed by what was returned
    before; it carries the clock reading cut down to the millisecond,
    whatever timestamp the caller had put in the record. *)
Theorem add_consultation_newest_first
    utcnow email (c : consultation payload) limit l u :
  first_match email l = Some u ->
  Forall (fun x => (sort_key x < bson_datetime utcnow)%N)
    (default [] (doc_consultations u)) ->
  (1 <= limit)%Z ->
  let h := snd (add_consultation utcnow email c (Connected l)) in
  get_consultations email limit h
  = (Return ({| timestamp := Some (bson_datetime utcnow); data := data c |}
             :: take (Z.to_nat limit - 1)
                  (sort_reverse sort_key (default [] (doc_consultations u)))),
     h).
Proof.
  intros Hu Hold Hlimit h. subst h.
  rewrite add_consultation_connected. simpl.
  rewrite get_consultations_connected.
  rewrite first_match_update_first by reflexivity. rewrite Hu. simpl.
  rewrite slice_to_nonneg by lia.
  rewrite sort_reverse_snoc_newest by exact Hold.
  replace (Z.to_nat limit) with (S (Z.to_nat limit - 1)) at 1 by lia.
  reflexivity.
Qed.

(** X10. With a negative limit [get_consultations] returns the sorted records
    without the last [-limit] of them, the oldest ones, and nothing when there
    are no more than [-limit]. *)
Theorem get_consultations_drops_oldest email limit l u consultations :
  first_match email l = Some u ->
  doc_consultations u = Some consultations ->
  (limit < 0)%Z ->
  exists res dropped,
    get_consultations email limit (Connected l) = (Return res, Connected l) /\
    sort_reverse sort_key consultations = res ++ dropped /\
    length dropped = Nat.min (Z.to_nat (- limit)) (length consultations).
Proof.
  intros Hu Hcs Hneg.
  set (sorted := sort_reverse sort_key consultations).
  set (n := Z.to_nat (Z.of_nat (length sorted) + limit)).
  exists (take n sorted), (drop n sorted).
  split.
  { rewrite get_consultations_connected, Hu, Hcs. unfold slice_to.
    destruct (Z.leb_spec 0 limit); [lia|reflexivity]. }
  split; [symmetry; apply take_drop|].
  rewrite length_drop. subst n sorted. rewrite length_sort_reverse. lia.
Qed.

(** X11. A limit of zero returns nothing, a limit of at least the number of stored
    records returns all of them, sorted; a document without a [consultations]
    field has no history. *)
Theorem get_consultations_limits email limit l u :
  first_match email l = Some u ->
  (doc_consultations u = None ->
     get_consultations email limit (Connected l) = (Return [], Connected l))
  /\ (forall consultations,
        doc_consultations u = Some consultations ->
        get_consultations email 0 (Connected l) = (Return [], Connected l) /\
        ((Z.of_nat (length consultations) <= limit)%Z ->
           exists res,
             get_consultations email limit (Connected l)
             = (Return res, Connected l) /\
             res ≡ₚ consultations /\ StronglySorted newest_first res)).
Proof.
  intros Hu. rewrite !get_consultations_connected, Hu. split.
  - intros ->. reflexivity.
  - intros consultations ->. split; [reflexivity|].
    intros Hall. exists (sort_reverse sort_key consultations).
    rewrite slice_to_nonneg by lia.
    rewrite take_ge by (rewrite length_sort_reverse; lia).
    split; [reflexivity|].
    split; [apply sort_reverse_Permutation|apply (sort_reverse_sorted sort_key)].
Qed.

(** X12. [get_user_stats] counts the stored consultations: each
    [add_consultation] for the user raises the count by one and changes
    nothing else in the statistics. *)
Theorem get_user_stats_counts utcnow email (c : consultation payload) l u :
  first_match email l = Some u ->
  let h := snd (add_consultation utcnow email c (Connected l)) in
  exists s s',
    get_user_stats email (Connected l) = (Return (Some s), Connected l) /\
    get_user_stats email h = (Return (Some s'), h) /\
    stats_total_consultations s = length (default [] (doc_consultations u)) /\
    stats_total_consultations s' = S (stats_total_consultations s) /\
    stats_name s' = stats_name s /\ stats_email s' = stats_email s /\
    stats_joined s' = stats_joined s /\ stats_verified s' = stats_verified s /\
    stats_profile s' = stats_profile s.
Proof.
  intros Hu h. subst h. rewrite add_consultation_connected. simpl.
  rewrite !get_user_stats_connected.
  rewrite first_match_update_first by reflexivity. rewrite Hu. simpl.
  eexists _, _. split; [reflexivity|]. split; [reflexivity|]. simpl.
  rewrite length_app. simpl. repeat split. lia.
Qed.

(** X13. [update_profile] replaces the profile as a whole: the statistics then
    show the profile given and are otherwise as before, the user's document
    differs in its profile only, and of two updates the later one stands. *)
Theorem update_profile_overwrites email profile_data profile_data' l u :
  first_match email l = Some u ->
  let h := snd (update_profile email profile_data (Connected l)) in
  (exists s s',
     get_user_stats email (Connected l) = (Return (Some s), Connected l) /\
     get_user_stats email h = (Return (Some s'), h) /\
     stats_profile s' = profile_data /\
     stats_name s' = stats_name s /\ stats_email s' = stats_email s /\
     stats_joined s' = stats_joined s /\
     stats_total_consultations s' = stats_total_consultations s /\
     stats_verified s' = stats_verified s) /\
  find_by_email email h = (Return (Some (set_profile profile_data u)), h) /\
  snd (update_profile email profile_data' h)
  = snd (update_profile email profile_data' (Connected l)).
Proof.
  intros Hu h. subst h. rewrite !update_profile_connected. simpl.
  rewrite !get_user_stats_connected.
  assert (Hfound :
    first_match email (update_first email (set_profile profile_data) l)
    = Some (set_profile profile_data u)).
  { rewrite first_match_update_first by reflexivity. rewrite Hu. reflexivity. }
  rewrite Hfound, Hu. simpl. split; [|split].
  - eexists _, _. split; [reflexivity|]. split; [reflexivity|]. repeat split.
  - unfold find_by_email, bind, find_one. simpl. rewrite Hfound. reflexivity.
  - f_equal. rewrite update_first_twice by reflexivity.
    apply update_first_ext. intros d. reflexivity.
Qed.

(** X14. A second [set_otp] replaces the code: the earlier code no longer
    verifies, and the later one does until the expiry stored with it, ten
    minutes after it was set, cut down to the millisecond. *)
Theorem set_otp_replaces_code t1 t2 t email (code1 code2 : string) l u :
  first_match email l = Some u ->
  code1 <> code2 ->
  (t < bson_datetime (t2 + ten_minutes))%N ->
  let h1 := snd (set_otp t1 email code1 (Connected l)) in
  let h2 := snd (set_otp t2 email code2 h1) in
  verify_otp t email (Some code1) h2 = (Return false, h2) /\
  fst (verify_otp t email (Some code2) h2) = Return true.
Proof.
  intros Hu Hne Hlt h1 h2. subst h2 h1.
  rewrite set_otp_connected. cbn [snd].
  rewrite set_otp_connected. cbn [snd].
  rewrite !verify_otp_connected.
  rewrite !first_match_update_first by reflexivity. rewrite Hu. simpl.
  rewrite String.eqb_refl.
  destruct (String.eqb_spec code2 code1) as [E|_]; [congruence|].
  destruct (N.ltb_spec t (bson_datetime (t2 + ten_minutes))); [|lia].
  split; reflexivity.
Qed.

End History.

(** ** The connection *)

Section Connection.
Context {payload : Type}.
Variable generate_password_hash : string -> string -> string.
Variable check_password_hash : string -> string -> bool.
Implicit Types (l : list (user_doc payload)).

(** X1. The handle is made once.  Whatever a later connection attempt would
    give, [Database()] hands back the first instance and leaves the class
    attribute alone; after a failed first attempt the collection stays out of
    reach, after a successful one it is the one reached then. *)
Theorem Database_new_once
    (attempt attempt' : option (list (user_doc payload))) _instance :
  let r := Database_new attempt _instance in
  Database_new attempt' (snd r) = r /\
  (_instance = None -> attempt = None ->
     User_get_collection attempt' (snd r) = (Raise DatabaseNotConnected, snd r))
  /\ (forall l, _instance = None -> attempt = Some l ->
        fst r = Connected l /\
        User_get_collection attempt' (snd r) = (Return users, snd r)).
Proof.
  intros r. subst r. split; [|split].
  - destruct _instance; reflexivity.
  - intros -> ->. reflexivity.
  - intros l -> ->. split; reflexivity.
Qed.

(** X2. On the handle of a failed connection every operation of [User] raises
    the not-connected error, and the handle stays as it is. *)
Theorem not_connected_raises
    utcnow salt inserted_id (email password otp google_id : string)
    name opt_password opt_google_id opt_otp limit reminder_index
    (c : consultation payload) profile_data (reminder_data : payload) :
  let h : Database payload := {| db := None |} in
  find_by_email email h = (Raise DatabaseNotConnected, h) /\
  find_by_google_id google_id h = (Raise DatabaseNotConnected, h) /\
  create_user generate_password_hash utcnow salt inserted_id email name
    opt_password opt_google_id h = (Raise DatabaseNotConnected, h) /\
  verify_password check_password_hash email password h
  = (Raise DatabaseNotConnected, h) /\
  set_otp utcnow email otp h = (Raise DatabaseNotConnected, h) /\
  verify_otp utcnow email opt_otp h = (Raise DatabaseNotConnected, h) /\
  add_consultation utcnow email c h = (Raise DatabaseNotConnected, h) /\
  get_consultations email limit h = (Raise DatabaseNotConnected, h) /\
  update_profile email profile_data h = (Raise DatabaseNotConnected, h) /\
  get_user_stats email h = (Raise DatabaseNotConnected, h) /\
  add_reminder email reminder_data h = (Raise DatabaseNotConnected, h) /\
  get_reminders email h = (Raise DatabaseNotConnected, h) /\
  delete_reminder email reminder_index h = (Raise DatabaseNotConnected, h).
Proof. intros h. repeat split. Qed.

End Connection.

(** ** Passcode generation *)

Lemma NoDup_digits : NoDup digits.
Proof. compute_done. Qed.

Lemma digit_of_draw_inj (a b : fin 10) :
  nth (fin_to_nat a) digits "0"%char = nth (fin_to_nat b) digits "0"%char ->
  a = b.
Proof.
  intros E. apply (inj fin_to_nat).
  pose proof (fin_to_nat_lt a) as Ha. pose proof (fin_to_nat_lt b) as Hb.
  rewrite !nth_lookup in E.
  destruct (lookup_lt_is_Some_2 digits (fin_to_nat a) Ha) as [x Hx].
  destruct (lookup_lt_is_Some_2 digits (fin_to_nat b) Hb) as [y Hy].
  rewrite Hx, Hy in E. simpl in E. subst y.
  exact (NoDup_lookup _ _ _ _ NoDup_digits Hx Hy).
Qed.

(** X3. [generate_otp] gives six characters, each a decimal digit (a leading zero
    included), and two runs give the same code only if all six draws agree. *)
Theorem generate_otp_six_digits (draw draw' : nat -> fin 10) :
  String.length (generate_otp draw) = 6 /\
  Forall (fun c => c ∈ digits) (String.list_ascii_of_string (generate_otp draw)) /\
  (generate_otp draw = generate_otp draw' <->
     forall i, i < 6 -> draw i = draw' i).
Proof.
  split; [reflexivity|]. split.
  - unfold generate_otp. rewrite String.list_ascii_of_string_of_list_ascii.
    unfold choices. apply Forall_fmap, Forall_forall. intros i _.
    change (nth (fin_to_nat (draw i)) digits "0"%char ∈ digits).
    rewrite nth_lookup.
    destruct (lookup_lt_is_Some_2 digits (fin_to_nat (draw i))
                (fin_to_nat_lt (draw i))) as [x Hx].
    rewrite Hx. simpl. apply list_elem_of_lookup. eauto.
  - split.
    + intros E. unfold generate_otp, choices in E. simpl in E.
      injection E as E0 E1 E2 E3 E4 E5.
      apply digit_of_draw_inj in E0, E1, E2, E3, E4, E5.
      intros i Hi.
      do 6 (destruct i as [|i]; [assumption|]). lia.
    + intros H. unfold generate_otp, choices. simpl.
      rewrite !H by lia. reflexivity.
Qed.

(** ** Federated identities and the constructor *)

Section Federated.
Context {payload : Type}.
Variable generate_password_hash : string -> string -> string.
Implicit Types (l : list (user_doc payload)) (u d : user_doc payload).
Implicit Types (email salt : string) (name password : option string).

Lemma find_by_google_id_connected (google_id : string) l :
  find_by_google_id google_id (Connected l)
  = (Return (first_google_match google_id l), Connected l).
Proof. reflexivity. Qed.

Lemma first_google_match_app (google_id : string) l l' :
  first_google_match google_id (l ++ l') =
  match first_google_match google_id l with
  | Some u => Some u
  | None => first_google_match google_id l'
  end.
Proof.
  induction l as [|d l IH]; simpl; [reflexivity|].
  destruct (doc_google_id d) as [g|]; simpl; [|exact IH].
  destruct (String.eqb g google_id); [reflexivity|exact IH].
Qed.

Lemma first_google_match_elem_of (google_id : string) l u :
  first_google_match google_id l = Some u ->
  u ∈ l /\ doc_google_id u = Some google_id.
Proof.
  induction l as [|d l IH]; simpl; [discriminate|].
  destruct (py_eq (doc_google_id d) (Some google_id)) eqn:E.
  - intros [= <-]. split; [left|]. apply py_eq_true. exact E.
  - intros H. destruct (IH H). split; [right|]; assumption.
Qed.

Lemma first_match_None_elem_of email l d :
  first_match email l = None -> d ∈ l -> doc_email d <> email.
Proof.
  induction l as [|d' l IH]; simpl; [intros _ H; inversion H|].
  destruct (String.eqb_spec (doc_email d') email) as [E|E]; [discriminate|].
  intros Hnone Hd. apply elem_of_cons in Hd as [->|Hd]; auto.
Qed.

(** X15. An account created with a [google_id] that no stored document
    carries is the one [find_by_google_id] then finds: the stored copy of
    the document returned, the same but for [created_at], which is cut down
    to the millisecond.  It is verified unless the [google_id] is the empty
    string. *)
Theorem find_by_google_id_after_create
    utcnow salt inserted_id email name password (google_id : string) l :
  first_match email l = None ->
  first_google_match google_id l = None ->
  let r := create_user generate_password_hash utcnow salt inserted_id email
             name password (Some google_id) (Connected l) in
  exists d,
    fst r = Return (Some d) /\
    find_by_google_id google_id (snd r)
    = (Return (Some (bson_document d)), snd r) /\
    doc_email (bson_document d) = email /\
    _id (bson_document d) = _id d /\
    doc_created_at (bson_document d) = bson_datetime utcnow /\
    (doc_verified (bson_document d) = true <-> google_id <> "").
Proof.
  intros Hfresh Hnone r. subst r.
  rewrite create_user_connected, Hfresh. simpl.
  eexists. split; [reflexivity|].
  rewrite find_by_google_id_connected, first_google_match_app, Hnone. simpl.
  rewrite String.eqb_refl. split; [reflexivity|].
  repeat (split; [reflexivity|]).
  destruct (String.eqb_spec google_id ""); simpl; split; congruence.
Qed.

(** X16. [create_user] does not look at the [google_id] of the stored
    documents: a second account with a [google_id] already stored, under
    another email, is inserted and its stored copy found by its email, while
    [find_by_google_id] keeps answering with the earlier document. *)
Theorem google_id_not_unique
    utcnow salt inserted_id email name password (google_id : string) l u :
  first_google_match google_id l = Some u ->
  first_match email l = None ->
  let r := create_user generate_password_hash utcnow salt inserted_id email
             name password (Some google_id) (Connected l) in
  exists d,
    fst r = Return (Some d) /\
    doc_google_id (bson_document d) = Some google_id /\
    doc_google_id u = Some google_id /\
    doc_email u <> doc_email (bson_document d) /\
    find_by_email email (snd r) = (Return (Some (bson_document d)), snd r) /\
    find_by_google_id google_id (snd r) = (Return (Some u), snd r).
Proof.
  intros Hu Hfresh r. subst r.
  rewrite create_user_connected, Hfresh. simpl.
  destruct (first_google_match_elem_of _ _ _ Hu) as [Hin Hg].
  eexists. split; [reflexivity|]. split; [reflexivity|]. split; [exact Hg|].
  split; [exact (first_match_None_elem_of _ _ _ Hfresh Hin)|]. split.
  - unfold find_by_email, bind, find_one. simpl.
    rewrite first_match_app, Hfresh. simpl. rewrite String.eqb_refl.
    reflexivity.
  - rewrite find_by_google_id_connected, first_google_match_app, Hu.
    reflexivity.
Qed.

(** X17. A [User] object and the document of [create_user], each built
    with its own salt and clock reading from the same arguments, agree on
    email, name, [google_id], the null passcode fields and the empty
    consultation list, and have a password hash in the same cases; the
    object is never verified, the document is when a non-empty [google_id]
    is given. *)
Theorem User_init_and_user_data
    utcnow salt utcnow' salt' inserted_id email name password
    (google_id : option string) :
  let self : User_object payload :=
    User_init generate_password_hash utcnow' salt' email name password
      google_id in
  let d : user_doc payload :=
    user_data generate_password_hash utcnow salt inserted_id email name
      password google_id in
  self_email self = doc_email d /\ self_name self = doc_name d /\
  self_google_id self = doc_google_id d /\
  self_otp self = doc_otp d /\ self_otp_expires self = doc_otp_expires d /\
  Some (self_consultations self) = doc_consultations d /\
  (self_password_hash self = None <-> doc_password_hash d = None) /\
  (forall p, password = Some p -> p <> "" ->
     self_password_hash self = Some (generate_password_hash salt' p) /\
     doc_password_hash d = Some (generate_password_hash salt p)) /\
  self_created_at self = utcnow' /\ doc_created_at d = utcnow /\
  self_verified self = false /\
  (self_verified self = doc_verified d <-> truthy google_id = false).
Proof.
  intros self d. subst self d. simpl.
  repeat (split; [reflexivity|]).
  split.
  { destruct password as [p|]; simpl; [|split; reflexivity].
    destruct (String.eqb p ""); simpl; split; congruence. }
  split.
  { intros p -> Hp. simpl.
    destruct (String.eqb_spec p ""); [contradiction|]. split; reflexivity. }
  repeat (split; [reflexivity|]).
  destruct (truthy google_id); split; congruence.
Qed.

End Federated.

(** ** What every history of the collection keeps *)

Section Histories.
Context {payload : Type}.
Variable generate_password_hash : string -> string -> string.
Variable check_password_hash : string -> string -> bool.
Implicit Types (l : list (user_doc payload)) (u d : user_doc payload).
Implicit Types (email : string) (f : user_doc payload -> user_doc payload).

Local Abbreviation step := (step generate_password_hash).

(** A step leaves the collection alone, appends the document of
    [create_user] under a fresh email, or sends one update. *)
Lemma step_cases l l' :
  step l l' ->
  l' = l \/
  (exists utcnow salt inserted_id email name password google_id,
     first_match email l = None /\
     l' = l ++ [bson_document
                  (user_data generate_password_hash utcnow salt inserted_id
                     email name password google_id)]) \/
  (exists email f, sent_update f /\ l' = update_first email f l).
Proof.
  destruct 1 as [l l' utcnow salt inserted_id email name password google_id H
                | l l' utcnow email otp H
                | l l' utcnow email otp H
                | l l' utcnow email c H
                | l l' email profile_data H
                | l l' email reminder_data H
                | l l' email reminder_index H].
  - rewrite create_user_connected in H.
    destruct (first_match email l) eqn:E; simpl in H; injection H as <-;
      [left; reflexivity|].
    right; left. eexists _, _, _, _, _, _, _. split; [exact E|reflexivity].
  - rewrite set_otp_connected in H. injection H as <-.
    right; right. eexists _, _. split; [constructor|reflexivity].
  - rewrite verify_otp_connected in H.
    destruct (first_match email l) as [u|]; [|injection H as <-; auto].
    destruct (py_eq (doc_otp u) otp); [|injection H as <-; auto].
    destruct (doc_otp_expires u) as [e|]; [|injection H as <-; auto].
    destruct (utcnow <? e)%N; injection H as <-; [|auto].
    right; right. eexists _, _. split; [constructor|reflexivity].
  - rewrite add_consultation_connected in H. injection H as <-.
    right; right. eexists _, _. split; [constructor|reflexivity].
  - rewrite update_profile_connected in H. injection H as <-.
    right; right. eexists _, _. split; [constructor|reflexivity].
  - rewrite add_reminder_connected in H. injection H as <-.
    right; right. eexists _, _. split; [constructor|reflexivity].
  - rewrite delete_reminder_connected in H.
    destruct (first_match email l) as [u|]; [|injection H as <-; auto].
    destruct (doc_reminders u) as [rs|]; [|injection H as <-; auto].
    destruct (_ && _)%bool; injection H as <-; [|auto].
    right; right. eexists _, _. split; [constructor|reflexivity].
Qed.

Lemma sent_update_email f d : sent_update f -> doc_email (f d) = doc_email d.
Proof. destruct 1; reflexivity. Qed.

Lemma sent_update_kept f d : sent_update f -> kept d (f d).
Proof.
  destruct 1; repeat split; simpl; auto;
    try (intros cs ->; exists []; rewrite app_nil_r; reflexivity).
  intros cs ->. eexists. reflexivity.
Qed.

Lemma sent_update_well_formed f d :
  sent_update f -> well_formed d -> well_formed (f d).
Proof.
  intros Hf (Hp & (cs & Hcs & Hst) & Hg).
  destruct Hf; unfold well_formed, otp_paired, all_stamped in *; simpl.
  - split; [split; discriminate|]. split; [eauto|exact Hg].
  - split; [split; reflexivity|]. split; [eauto|auto].
  - split; [exact Hp|]. split; [|exact Hg].
    rewrite Hcs. simpl. eexists. split; [reflexivity|].
    apply Forall_app. split; [exact Hst|]. repeat constructor. eauto.
  - split; [exact Hp|]. split; [eauto|exact Hg].
  - split; [exact Hp|]. split; [eauto|exact Hg].
  - split; [exact Hp|]. split; [eauto|exact Hg].
Qed.

Lemma user_data_well_formed
    utcnow salt inserted_id email name password google_id :
  well_formed (bson_document
                 (user_data (payload := payload) generate_password_hash utcnow
                    salt inserted_id email name password google_id)).
Proof.
  split; [split; reflexivity|]. split.
  - exists []. split; [reflexivity|constructor].
  - simpl. intros ->. reflexivity.
Qed.

Lemma fmap_email_update_first email f l :
  (forall d, doc_email (f d) = doc_email d) ->
  doc_email <$> update_first email f l = doc_email <$> l.
Proof.
  intros Hf. induction l as [|d l IH]; csimpl; [reflexivity|].
  destruct (String.eqb (doc_email d) email); csimpl; [rewrite Hf|rewrite IH];
    reflexivity.
Qed.

Lemma first_match_None_not_elem_of email l :
  first_match email l = None -> email ∉ doc_email <$> l.
Proof.
  induction l as [|d l IH]; csimpl; [intros _; apply not_elem_of_nil|].
  destruct (String.eqb_spec (doc_email d) email) as [E|E]; [discriminate|].
  intros H. apply not_elem_of_cons. split; [congruence|auto].
Qed.

Lemma count_by_email_NoDup email l :
  NoDup (doc_email <$> l) -> count_by_email email l <= 1.
Proof.
  unfold count_by_email. induction l as [|d l IH]; csimpl; [lia|].
  rewrite NoDup_cons. intros [Hd Hl]. rewrite filter_cons.
  destruct (decide (doc_email d = email)) as [E|E]; [|auto].
  simpl. enough (filter (fun d => doc_email d = email) l = []) as ->
    by (simpl; lia).
  clear IH Hl. induction l as [|d' l IH]; [reflexivity|].
  csimpl in Hd. apply not_elem_of_cons in Hd as [Hne Hd].
  rewrite filter_cons_False by congruence. auto.
Qed.

(** X18. Whatever operations ran since the collection was empty, no two documents
    have the same email. *)
Theorem emails_unique l :
  rtc step [] l ->
  NoDup (doc_email <$> l) /\ forall email, count_by_email email l <= 1.
Proof.
  intros Hl.
  assert (Hnd : NoDup (doc_email <$> l)).
  { revert l Hl. apply (rtc_ind_r (fun l => NoDup (doc_email <$> l)));
      [constructor|intros l l' _ Hstep IH].
    destruct (step_cases _ _ Hstep)
      as [->|[(t & s & i & email & n & p & g & Hfresh & ->)
             |(email & f & Hf & ->)]].
    - exact IH.
    - rewrite fmap_app. csimpl. apply NoDup_app. split; [exact IH|]. split.
      + intros e He Hin. apply list_elem_of_singleton in Hin as ->.
        exact (first_match_None_not_elem_of _ _ Hfresh He).
      + apply NoDup_singleton.
    - rewrite fmap_email_update_first; [exact IH|].
      intros d. apply sent_update_email, Hf. }
  split; [exact Hnd|]. intros email. apply count_by_email_NoDup, Hnd.
Qed.

(** The induction behind the invariants of the documents. *)
Lemma steps_well_formed l : rtc step [] l -> Forall well_formed l.
Proof.
  revert l. apply (rtc_ind_r (Forall well_formed));
    [constructor|intros l l' _ Hstep IH].
  destruct (step_cases _ _ Hstep)
    as [->|[(t & s & i & email & n & p & g & Hfresh & ->)
           |(email & f & Hf & ->)]].
  - exact IH.
  - apply Forall_app. split; [exact IH|].
    constructor; [apply user_data_well_formed|constructor].
  - apply update_first_Forall; [|exact IH].
    intros d. apply sent_update_well_formed, Hf.
Qed.

(** X19. Whatever operations ran since the collection was empty, every document
    has its passcode and expiry null together or set together, a timestamp on
    each stored consultation, and is verified if its [google_id] is a
    non-empty string. *)
Theorem documents_well_formed l : rtc step [] l -> Forall well_formed l.
Proof. apply steps_well_formed. Qed.

Lemma kept_refl u : kept u u.
Proof.
  repeat split; auto. intros cs ->. exists []. rewrite app_nil_r. reflexivity.
Qed.

Lemma kept_trans u1 u2 u3 : kept u1 u2 -> kept u2 u3 -> kept u1 u3.
Proof.
  intros (A1 & A2 & A3 & A4 & A5 & A6 & A7 & A8)
         (B1 & B2 & B3 & B4 & B5 & B6 & B7 & B8).
  repeat split; try congruence; auto.
  intros cs Hcs. destruct (A8 cs Hcs) as [m Hm].
  destruct (B8 _ Hm) as [m' Hm']. exists (m ++ m').
  rewrite Hm', app_assoc. reflexivity.
Qed.

Lemma step_kept l l' email u :
  step l l' -> first_match email l = Some u ->
  exists u', first_match email l' = Some u' /\ kept u u'.
Proof.
  intros Hstep Hu.
  destruct (step_cases _ _ Hstep)
    as [->|[(t & s & i & email0 & n & p & g & Hfresh & ->)
           |(email0 & f & Hf & ->)]].
  - exists u. split; [exact Hu|apply kept_refl].
  - exists u. rewrite first_match_app, Hu. split; [reflexivity|apply kept_refl].
  - destruct (String.eqb_spec email email0) as [->|Hne].
    + exists (f u).
      rewrite first_match_update_first by (intros; apply sent_update_email, Hf).
      rewrite Hu. split; [reflexivity|apply sent_update_kept, Hf].
    + exists u.
      rewrite first_match_update_first_ne
        by (try (intros; apply sent_update_email, Hf); exact Hne).
      split; [exact Hu|apply kept_refl].
Qed.

Lemma step_length l l' : step l l' -> length l <= length l'.
Proof.
  intros Hstep.
  destruct (step_cases _ _ Hstep)
    as [->|[(t & s & i & email & n & p & g & Hfresh & ->)
           |(email & f & Hf & ->)]].
  - lia.
  - rewrite length_app. lia.
  - clear Hf Hstep. induction l as [|d l IH]; simpl; [lia|].
    destruct (String.eqb (doc_email d) email); simpl; lia.
Qed.

(** X20. No operation removes a document, changes its identifier, email, name,
    password hash, [google_id] or creation time, takes [verified] back, or
    drops or reorders consultations already stored: after any number of
    operations the document found under an email is still found, with all
    of that kept. *)
Theorem operations_keep l l' email u :
  rtc step l l' ->
  first_match email l = Some u ->
  length l <= length l' /\
  exists u', first_match email l' = Some u' /\ kept u u'.
Proof.
  intros Hsteps Hu. revert l' Hsteps.
  apply (rtc_ind_r (fun l' => length l <= length l' /\
           exists u', first_match email l' = Some u' /\ kept u u'));
    [|intros l' l'' _ Hstep IH].
  - split; [lia|]. exists u. split; [exact Hu|apply kept_refl].
  - destruct IH as (Hlen & u' & Hu' & Hk).
    destruct (step_kept _ _ _ _ Hstep Hu') as (u'' & Hu'' & Hk').
    split; [pose proof (step_length _ _ Hstep); lia|].
    exists u''. split; [exact Hu''|exact (kept_trans _ _ _ Hk Hk')].
Qed.

(** X21. There is no way to change a password: once an account is stored, the
    answer of [verify_password] for it is the same after any number of
    operations. *)
Theorem password_never_changes l l' email (password : string) u :
  rtc step l l' ->
  first_match email l = Some u ->
  fst (verify_password check_password_hash email password (Connected l'))
  = fst (verify_password check_password_hash email password (Connected l)).
Proof.
  intros Hsteps Hu.
  assert (exists u', first_match email l' = Some u' /\
                     doc_password_hash u' = doc_password_hash u)
    as (u' & Hu' & Hh).
  { clear password. revert l' Hsteps.
    apply (rtc_ind_r (fun l' => exists u', first_match email l' = Some u' /\
             doc_password_hash u' = doc_password_hash u));
      [|intros l' l'' _ Hstep IH].
    - exists u. auto.
    - destruct IH as (u' & Hu' & Hh).
      destruct (step_kept _ _ _ _ Hstep Hu') as (u'' & Hu'' & Hk).
      exists u''. split; [exact Hu''|].
      destruct Hk as (_ & _ & _ & Hp & _). congruence. }
  rewrite !verify_password_connected, Hu, Hu', Hh. reflexivity.
Qed.

End Histories.

(** ** Registration and verification, end to end *)

Section Lifecycle.
Context {payload : Type}.
Variable generate_password_hash : string -> string -> string.
Implicit Types (l : list (user_doc payload)) (u : user_doc payload).
Implicit Types (email code : string) (utcnow : datetime).

(** X22. Registering twice: once [create_user] has stored an account, a further
    [create_user] for the same email, whatever its other arguments, returns
    [None] and changes nothing. *)
Theorem create_user_twice
    utcnow salt inserted_id email name password google_id
    utcnow' salt' inserted_id' name' password' google_id' l :
  first_match email l = None ->
  let h := snd (create_user generate_password_hash utcnow salt inserted_id
                  email name password google_id (Connected l)) in
  create_user generate_password_hash utcnow' salt' inserted_id' email name'
    password' google_id' h = (Return None, h).
Proof.
  intros Hfresh h. subst h.
  rewrite create_user_connected, Hfresh. simpl.
  rewrite create_user_connected, first_match_app, Hfresh. simpl.
  rewrite String.eqb_refl. reflexivity.
Qed.

(** X23. A new account has no passcode: until [set_otp] is called,
    [verify_otp] returns false for every code at every time, and with no
    code at all it raises, the missing code being equal to the one stored and
    the missing expiry not comparable with the clock; nothing is written
    either way. *)
Theorem new_account_has_no_code
    utcnow salt inserted_id email name password google_id t code l :
  first_match email l = None ->
  let h := snd (create_user generate_password_hash utcnow salt inserted_id
                  email name password google_id (Connected l)) in
  verify_otp t email (Some code) h = (Return false, h) /\
  verify_otp t email None h = (Raise TypeError, h).
Proof.
  intros Hfresh h. subst h.
  rewrite create_user_connected, Hfresh. simpl.
  rewrite !verify_otp_connected, first_match_app, Hfresh. simpl.
  rewrite String.eqb_refl. split; reflexivity.
Qed.

(** X24. Failed attempts are not counted: after any run of [verify_otp]
    calls with codes other than the stored one the collection is as before,
    and the stored code still verifies before its expiry. *)
Theorem wrong_attempts_not_counted
    email code expires t (tries : list (datetime * option string)) l u :
  first_match email l = Some u ->
  doc_otp u = Some code ->
  doc_otp_expires u = Some expires ->
  Forall (fun try => snd try <> Some code) tries ->
  (t < expires)%N ->
  verify_otp_attempts email tries (Connected l) = Connected l /\
  fst (verify_otp t email (Some code) (Connected l)) = Return true.
Proof.
  intros Hu Hcode Hexp Hwrong Hlt. split.
  - induction Hwrong as [|[t' c'] tries Hc _ IH]; [reflexivity|].
    cbn [verify_otp_attempts]. rewrite verify_otp_connected, Hu, Hcode.
    assert (py_eq (Some code) c' = false) as ->
      by (apply py_eq_false; cbn in Hc; congruence).
    exact IH.
  - rewrite verify_otp_connected, Hu, Hcode, Hexp. simpl.
    rewrite String.eqb_refl.
    destruct (N.ltb_spec t expires); [reflexivity|lia].
Qed.

(** X25. On a collection built by the operations of the module,
    [verify_otp] with a code always returns a boolean.  Without a code it
    raises exactly for an account with no code pending, where the missing
    expiry is compared with the clock; for an account with a code pending and
    for an unknown email it returns false. *)
Theorem verify_otp_raises_only_without_code utcnow email l :
  rtc (step generate_password_hash) [] l ->
  (forall code,
     exists b, fst (verify_otp utcnow email (Some code) (Connected l)) = Return b)
  /\ (forall u, first_match email l = Some u -> doc_otp u = None ->
        verify_otp utcnow email None (Connected l)
        = (Raise TypeError, Connected l))
  /\ (forall u code, first_match email l = Some u -> doc_otp u = Some code ->
        verify_otp utcnow email None (Connected l)
        = (Return false, Connected l))
  /\ (first_match email l = None ->
        verify_otp utcnow email None (Connected l)
        = (Return false, Connected l)).
Proof.
  intros Hl. apply steps_well_formed in Hl.
  assert (Hpaired : forall u, first_match email l = Some u -> otp_paired u).
  { intros u Hu.
    assert (Hin : u ∈ l).
    { clear -Hu. induction l as [|d l IH]; simpl in Hu; [discriminate|].
      destruct (String.eqb (doc_email d) email).
      - injection Hu as <-. left.
      - right. auto. }
    rewrite Forall_forall in Hl. destruct (Hl u Hin) as (Hp & _). exact Hp. }
  split; [|split; [|split]].
  - intros code. rewrite verify_otp_connected.
    destruct (first_match email l) as [u|] eqn:Hu; [|eauto].
    destruct (py_eq (doc_otp u) (Some code)) eqn:Hc; [|eauto].
    apply py_eq_true in Hc.
    destruct (doc_otp_expires u) as [e|] eqn:He.
    + destruct (utcnow <? e)%N; eauto.
    + exfalso. destruct (Hpaired u eq_refl) as [_ Hp].
      rewrite (Hp He) in Hc. discriminate.
  - intros u Hu Hnone. rewrite verify_otp_connected, Hu, Hnone. simpl.
    destruct (Hpaired u Hu) as [Hp _]. rewrite (Hp Hnone). reflexivity.
  - intros u code Hu Hcode. rewrite verify_otp_connected, Hu, Hcode.
    reflexivity.
  - intros Hnone. rewrite verify_otp_connected, Hnone. reflexivity.
Qed.

End Lifecycle.

(** ** Worked examples for the further properties *)

(** [alice] registers and is sent a code. *)
Lemma alice_trace : rtc (step plain_hash) [] [alice_pending].
Proof.
  apply (rtc_l _ _ [alice]).
  - apply (step_create_user plain_hash [] [alice] 1000%N "s" 1%N "a@x.com"
             (Some "Alice") (Some "pw1") None). reflexivity.
  - apply rtc_once.
    apply (step_set_otp plain_hash [alice] [alice_pending] 5000%N "a@x.com"
             "123456"). reflexivity.
Qed.

Lemma writes_to_unknown_email_dropped_witness :
  add_consultation 10 "nobody@x.com" (Consultation None "cough")
    (Connected [alice; bob])
  = (Return tt, Connected [alice; bob]).
Proof.
  exact (proj1 (writes_to_unknown_email_dropped 10%N "nobody@x.com"
                  (Consultation None "cough") default_profile "statin"
                  [alice; bob] eq_refl)).
Defined.

Lemma reads_of_unknown_email_witness :
  get_user_stats "nobody@x.com" (Connected [alice; bob])
  = (Return None, Connected [alice; bob]).
Proof.
  destruct (reads_of_unknown_email "nobody@x.com" 10 0 [alice; bob] eq_refl)
    as (_ & _ & _ & Hstats & _).
  exact Hstats.
Defined.

Lemma add_reminder_appends_witness :
  let h := snd (add_reminder "a@x.com" "statin" (Connected [alice; bob])) in
  get_reminders "a@x.com" h = (Return ["statin"], h).
Proof.
  exact (proj1 (add_reminder_appends "a@x.com" "statin" [alice; bob] alice
                  eq_refl)).
Defined.

Lemma add_then_delete_reminder_witness :
  let h := snd (add_reminder "a@x.com" "warfarin"
                  (Connected [alice_reminders; bob])) in
  fst (delete_reminder "a@x.com" 3 h) = Return true.
Proof.
  exact (proj1 (add_then_delete_reminder "a@x.com" "warfarin"
                  [alice_reminders; bob] alice_reminders eq_refl)).
Defined.

Lemma no_reminders_field_witness :
  delete_reminder "a@x.com" 0 (Connected [alice; bob])
  = (Return false, Connected [alice; bob]).
Proof.
  exact (proj2 (no_reminders_field "a@x.com" 0 [alice; bob] alice
                  eq_refl eq_refl)).
Defined.

Lemma add_consultation_newest_first_witness :
  let h := snd (add_consultation 60500 "a@x.com"
                  (Consultation (Some 5%N) "burn") (Connected history)) in
  get_consultations "a@x.com" 2 h
  = (Return [Consultation (Some 60000%N) "burn";
             Consultation (Some 50000%N) "migraine"], h).
Proof.
  apply (add_consultation_newest_first 60500%N "a@x.com"
           (Consultation (Some 5%N) "burn") 2 history (nth 0 history alice)).
  - reflexivity.
  - repeat constructor.
  - lia.
Defined.

Lemma get_consultations_drops_oldest_witness :
  exists res dropped : list (consultation string),
    get_consultations "a@x.com" (-2) (Connected history)
    = (Return res, Connected history) /\
    length res = 3 /\ length dropped = 2.
Proof.
  destruct (get_consultations_drops_oldest "a@x.com" (-2) history
              (nth 0 history alice) _ eq_refl eq_refl ltac:(lia))
    as (res & dropped & Hres & Hsplit & Hlen).
  exists res, dropped. split; [exact Hres|].
  assert (Hall : length (res ++ dropped) = 5) by (rewrite <- Hsplit; reflexivity).
  rewrite length_app in Hall. simpl in Hlen. lia.
Defined.

Lemma get_consultations_limits_witness :
  get_consultations "a@x.com" 0 (Connected history)
  = (Return [], Connected history).
Proof.
  destruct (get_consultations_limits "a@x.com" 0 history (nth 0 history alice)
              eq_refl) as [_ Hsome].
  exact (proj1 (Hsome _ eq_refl)).
Defined.

Lemma get_user_stats_counts_witness :
  let h := snd (add_consultation 60500 "a@x.com" (Consultation None "burn")
                  (Connected history)) in
  exists s', get_user_stats "a@x.com" h = (Return (Some s'), h) /\
             stats_total_consultations s' = 6.
Proof.
  destruct (get_user_stats_counts 60500%N "a@x.com" (Consultation None "burn")
              history (nth 0 history alice) eq_refl)
    as (s & s' & _ & Hafter & Hbefore & Hcount & _).
  exists s'. split; [exact Hafter|]. rewrite Hcount, Hbefore. reflexivity.
Defined.

Lemma update_profile_overwrites_witness :
  let p := {| age := Some 40%Z; weight := None; allergies := ["latex"];
              medical_conditions := [] |} in
  let h := snd (update_profile "a@x.com" p (Connected [alice; bob])) in
  find_by_email "a@x.com" h = (Return (Some (set_profile p alice)), h).
Proof.
  intros p.
  destruct (update_profile_overwrites "a@x.com" p default_profile [alice; bob]
              alice eq_refl) as (_ & Hfound & _).
  exact Hfound.
Defined.

Lemma set_otp_replaces_code_witness :
  let h1 := snd (set_otp 5000 "a@x.com" "123456" (Connected [alice; bob])) in
  let h2 := snd (set_otp 5500 "a@x.com" "654321" h1) in
  verify_otp 6000 "a@x.com" (Some "123456") h2 = (Return false, h2) /\
  fst (verify_otp 6000 "a@x.com" (Some "654321") h2) = Return true.
Proof.
  apply (set_otp_replaces_code 5000%N 5500%N 6000%N "a@x.com" "123456" "654321"
           [alice; bob] alice); [reflexivity|discriminate|reflexivity].
Defined.

Lemma Database_new_once_witness :
  let r := Database_new (payload := string) None None in
  Database_new (Some [alice; bob]) (snd r) = r /\
  User_get_collection (Some [alice; bob]) (snd r)
  = (Raise DatabaseNotConnected, snd r).
Proof.
  destruct (Database_new_once (payload := string) None (Some [alice; bob]) None)
    as (Hsame & Hfailed & _).
  split; [exact Hsame|exact (Hfailed eq_refl eq_refl)].
Defined.

Lemma find_by_google_id_after_create_witness :
  let r := create_user plain_hash 3000 "s" 3 "c@x.com" (Some "Carol") None
             (Some "g-7") (Connected [alice; bob]) in
  exists d, fst r = Return (Some d) /\
            find_by_google_id "g-7" (snd r)
            = (Return (Some (bson_document d)), snd r).
Proof.
  destruct (find_by_google_id_after_create plain_hash 3000%N "s" 3%N "c@x.com"
              (Some "Carol") None "g-7" [alice; bob] eq_refl eq_refl)
    as (d & Hd & Hfind & _).
  exists d. split; [exact Hd|exact Hfind].
Defined.

Lemma google_id_not_unique_witness :
  let r := create_user plain_hash 3000 "s" 3 "c@x.com" (Some "Carol") None
             (Some "g-42") (Connected [alice; bob]) in
  exists d, fst r = Return (Some d) /\
            doc_google_id (bson_document d) = Some "g-42" /\
            find_by_google_id "g-42" (snd r) = (Return (Some bob), snd r).
Proof.
  destruct (google_id_not_unique plain_hash 3000%N "s" 3%N "c@x.com"
              (Some "Carol") None "g-42" [alice; bob] bob eq_refl eq_refl)
    as (d & Hd & Hg & _ & _ & _ & Hfind).
  exists d. split; [exact Hd|]. split; [exact Hg|exact Hfind].
Defined.

Lemma emails_unique_witness : count_by_email "a@x.com" [alice_pending] <= 1.
Proof.
  exact (proj2 (emails_unique plain_hash [alice_pending] alice_trace) "a@x.com").
Defined.

Lemma documents_well_formed_witness : Forall well_formed [alice_pending].
Proof. exact (documents_well_formed plain_hash [alice_pending] alice_trace). Defined.

Lemma operations_keep_witness :
  exists u', first_match "a@x.com" [alice_pending] = Some u' /\ kept alice u'.
Proof.
  destruct (operations_keep plain_hash [alice] [alice_pending] "a@x.com" alice)
    as (_ & Hkept).
  - apply rtc_once.
    apply (step_set_otp plain_hash [alice] [alice_pending] 5000%N "a@x.com"
             "123456"). reflexivity.
  - reflexivity.
  - exact Hkept.
Defined.

Lemma password_never_changes_witness :
  fst (verify_password plain_check "a@x.com" "pw1" (Connected [alice_pending]))
  = fst (verify_password plain_check "a@x.com" "pw1" (Connected [alice])).
Proof.
  apply (password_never_changes plain_hash plain_check [alice] [alice_pending]
           "a@x.com" "pw1" alice); [|reflexivity].
  apply rtc_once.
  apply (step_set_otp plain_hash [alice] [alice_pending] 5000%N "a@x.com"
           "123456"). reflexivity.
Defined.

Lemma create_user_twice_witness :
  let h := snd (create_user plain_hash 3000 "s" 3 "c@x.com" (Some "Carol")
                  (Some "pw3") None (Connected [alice; bob])) in
  create_user plain_hash 4000 "t" 4 "c@x.com" (Some "Mallory") (Some "pw4") None h
  = (Return None, h).
Proof.
  apply (create_user_twice plain_hash 3000%N "s" 3%N "c@x.com" (Some "Carol")
           (Some "pw3") None 4000%N "t" 4%N (Some "Mallory") (Some "pw4") None
           [alice; bob]).
  reflexivity.
Defined.

Lemma new_account_has_no_code_witness :
  let h := snd (create_user plain_hash 3000 "s" 3 "c@x.com" (Some "Carol")
                  (Some "pw3") None (Connected [alice; bob])) in
  verify_otp 3001 "c@x.com" (Some "000000") h = (Return false, h) /\
  verify_otp 3001 "c@x.com" None h = (Raise TypeError, h).
Proof.
  apply (new_account_has_no_code plain_hash 3000%N "s" 3%N "c@x.com"
           (Some "Carol") (Some "pw3") None 3001%N "000000" [alice; bob]).
  reflexivity.
Defined.

Lemma wrong_attempts_not_counted_witness :
  verify_otp_attempts "a@x.com" [(5100%N, Some "000000"); (5200%N, None)]
    (Connected [alice_pending; bob])
  = Connected [alice_pending; bob] /\
  fst (verify_otp 6000 "a@x.com" (Some "123456")
         (Connected [alice_pending; bob]))
  = Return true.
Proof.
  apply (wrong_attempts_not_counted "a@x.com" "123456" (5000 + ten_minutes)%N
           6000%N [(5100%N, Some "000000"); (5200%N, None)]
           [alice_pending; bob] alice_pending);
    [reflexivity|reflexivity|reflexivity| |reflexivity].
  repeat constructor; discriminate.
Defined.

Lemma verify_otp_raises_only_without_code_witness :
  (exists b,
     fst (verify_otp 6000 "a@x.com" (Some "123456") (Connected [alice_pending]))
     = Return b) /\
  verify_otp 6000 "a@x.com" None (Connected [alice_pending])
  = (Return false, Connected [alice_pending]).
Proof.
  destruct (verify_otp_raises_only_without_code plain_hash 6000%N "a@x.com"
              [alice_pending] alice_trace) as (Hcode & _ & Hpending & _).
  split; [exact (Hcode "123456")|].
  exact (Hpending alice_pending "123456" eq_refl eq_refl).
Defined.

Lemma generate_otp_six_digits_witness :
  String.length (generate_otp (fun _ => 0%fin)) = 6 /\
  generate_otp (fun _ => 0%fin) = "000000".
Proof.
  split; [|reflexivity].
  exact (proj1 (generate_otp_six_digits (fun _ => 0%fin) (fun _ => 0%fin))).
Defined.
